(** * Smart ATS Resume Tracker: the resume-evaluation pipeline of [app.py]

    A shallow embedding of the evaluation script: text extraction, the
    format check, prompt construction, the cached model call, the decoding
    of the model's answer and the mapping of scores onto bands and gauge
    colours.

    Text model.  A Python [str] is a Rocq [string] whose characters are the
    code points U+0000..U+00FF; the tables below ([isspace], [lower_char])
    are CPython's for that range.  Code points above U+00FF are outside the
    model: the JSON decoder reports [BeyondLatin1] when an escape denotes
    one. *)

From Stdlib Require Import ZArith List String Ascii Bool Lia.
From Stdlib Require Import Numbers.DecimalString.
Import ListNotations.

Open Scope string_scope.
Open Scope Z_scope.

(** ** Builtins of [str] used by the script *)

Module PyStr.

Definition code (c : ascii) : Z := Z.of_N (N_of_ascii c).

(** [str.isspace] on one character: TAB..CR, FS..US, SPACE, NEL, NBSP. *)
Definition isspace (c : ascii) : bool :=
  let n := code c in
  ((9 <=? n) && (n <=? 13)) || ((28 <=? n) && (n <=? 32))
  || (n =? 133) || (n =? 160).

(** Lower-case mapping of one character: A..Z and the Latin-1 capitals
    U+00C0..U+00DE (the multiplication sign U+00D7 is not a letter). *)
Definition lower_char (c : ascii) : ascii :=
  let n := code c in
  if ((65 <=? n) && (n <=? 90))
     || ((192 <=? n) && (n <=? 222) && negb (n =? 215))
  then ascii_of_N (Z.to_N (n + 32)) else c.

(** [s.lower()] *)
Fixpoint lower (s : string) : string :=
  match s with
  | EmptyString => EmptyString
  | String c s' => String (lower_char c) (lower s')
  end.

(** [s.split()]: the maximal runs of non-whitespace characters, in order.
    [word] is the run being read. *)
Fixpoint split_from (word s : string) : list string :=
  match s with
  | EmptyString => if String.eqb word "" then [] else [word]
  | String c s' =>
      if isspace c
      then (if String.eqb word "" then split_from "" s'
            else word :: split_from "" s')
      else split_from (word ++ String c "") s'
  end.

Definition split (s : string) : list string := split_from "" s.

(** [sub in s] *)
Fixpoint contains (sub s : string) : bool :=
  String.prefix sub s ||
  match s with
  | EmptyString => false
  | String _ s' => contains sub s'
  end.

(** [s.replace(old, "")] for a one-character [old] *)
Fixpoint remove_char (old : ascii) (s : string) : string :=
  match s with
  | EmptyString => EmptyString
  | String c s' =>
      if Ascii.eqb c old then remove_char old s'
      else String c (remove_char old s')
  end.

(** [sep.join(items)] *)
Fixpoint join (sep : string) (items : list string) : string :=
  match items with
  | [] => ""
  | [x] => x
  | x :: rest => x ++ sep ++ join sep rest
  end.

(** *** [int(s)] on a [str], base 10

    CPython first maps the non-ASCII whitespace (NEL, NBSP here) to a
    space, then reads: ASCII whitespace, an optional sign, digits with
    single underscores between them, ASCII whitespace, end of string.
    [None] is [ValueError].  Not modelled: the limit that recent CPython
    versions put on the number of digits. *)

Definition int_space (c : ascii) : bool :=
  let n := code c in
  ((9 <=? n) && (n <=? 13)) || (n =? 32) || (n =? 133) || (n =? 160).

Definition is_digit (c : ascii) : bool :=
  let n := code c in (48 <=? n) && (n <=? 57).

Definition digit_value (c : ascii) : Z := code c - 48.

Fixpoint skip_int_space (s : string) : string :=
  match s with
  | String c s' => if int_space c then skip_int_space s' else s
  | EmptyString => s
  end.

(** Reads [digit ("_"? digit)*] after a first digit whose value is in
    [acc]; [after_us] tells that the previous character was an underscore.
    Returns the value and the unread rest. *)
Fixpoint int_digits (acc : Z) (after_us : bool) (s : string)
  : option (Z * string) :=
  match s with
  | EmptyString => if after_us then None else Some (acc, s)
  | String c s' =>
      if is_digit c then int_digits (10 * acc + digit_value c) false s'
      else if Ascii.eqb c "_" then
        (if after_us then None else int_digits acc true s')
      else if after_us then None else Some (acc, s)
  end.

Definition int_unsigned (s : string) : option Z :=
  match s with
  | String c s' =>
      if is_digit c then
        match int_digits (digit_value c) false s' with
        | Some (v, rest) =>
            match skip_int_space rest with
            | EmptyString => Some v
            | _ => None
            end
        | None => None
        end
      else None
  | EmptyString => None
  end.

Definition int (s : string) : option Z :=
  match skip_int_space s with
  | String c s' as t =>
      if Ascii.eqb c "+" then int_unsigned s'
      else if Ascii.eqb c "-" then option_map Z.opp (int_unsigned s')
      else int_unsigned t
  | EmptyString => None
  end.

End PyStr.

(** ** Format Checker: [check_resume_format] *)

Definition too_short_msg : string :=
  "Your resume text is too short. Consider adding more details.".
Definition missing_sections_msg : string :=
  "Missing standard sections like Skills, Experience, or Education.".

Definition section_keywords : list string :=
  ["skills"; "experience"; "education"].

Definition word_count (resume_text : string) : nat :=
  List.length (PyStr.split resume_text).

(** [any(keyword in resume_text.lower() for keyword in [...])] *)
Definition has_section_keyword (resume_text : string) : bool :=
  existsb (fun keyword => PyStr.contains keyword (PyStr.lower resume_text))
          section_keywords.

(** The body of [check_resume_format] for a [str] argument, written as the
    source has it: two flags updated by two independent tests. *)
Definition format_check (resume_text : string) : bool * list string :=
  let ats_friendly := true in
  let feedback : list string := [] in
  let '(ats_friendly, feedback) :=
    if (word_count resume_text <? 200)%nat
    then (false, (feedback ++ [too_short_msg])%list)
    else (ats_friendly, feedback) in
  let '(ats_friendly, feedback) :=
    if negb (has_section_keyword resume_text)
    then (false, (feedback ++ [missing_sections_msg])%list)
    else (ats_friendly, feedback) in
  (ats_friendly, feedback).

(** ** Python [float]: IEEE 754 binary64

    A finite non-zero double is [m * 2^e] with [0 < m < 2^53] and
    [-1074 <= e <= 971], where [2^52 <= m] unless [e = -1074]; arithmetic
    rounds to nearest, ties to even. *)

Module PyFloat.

Inductive float :=
| Zero (neg : bool)
| Finite (neg : bool) (m : Z) (e : Z)
| Inf (neg : bool)
| NaN.

(** The exponent [k] with [2^k <= n/d < 2^(k+1)], for [0 < n], [0 < d]. *)
Definition ilog2_ratio (n d : Z) : Z :=
  let k := Z.log2 n - Z.log2 d in
  let reaches :=
    if 0 <=? k then d * 2 ^ k <=? n else d <=? n * 2 ^ (- k) in
  if reaches then k else k - 1.

(** The double nearest to [n/d] ([0 < n], [0 < d]), ties to even; [None]
    when the rounded value exceeds the largest finite double. *)
Definition round_ratio (neg : bool) (n d : Z) : option float :=
  let e := Z.max (ilog2_ratio n d - 52) (-1074) in
  let num := if 0 <=? e then n else n * 2 ^ (- e) in
  let den := if 0 <=? e then d * 2 ^ e else d in
  let q := num / den in
  let r := num mod den in
  let m :=
    if 2 * r <? den then q
    else if den <? 2 * r then q + 1
    else if Z.even q then q else q + 1 in
  if m =? 0 then Some (Zero neg)
  else if 1024 <=? Z.log2 m + e then None
  else if m =? 2 ^ 53 then Some (Finite neg (2 ^ 52) (e + 1))
  else Some (Finite neg m e).

Inductive arith_error := ZeroDivisionError | OverflowError.

(** [a / b] on two [int]s: the correctly rounded quotient. *)
Definition true_divide (a b : Z) : arith_error + float :=
  if b =? 0 then inl ZeroDivisionError
  else
    let neg := xorb (a <? 0) (b <? 0) in
    if a =? 0 then inr (Zero neg)
    else match round_ratio neg (Z.abs a) (Z.abs b) with
         | Some x => inr x
         | None => inl OverflowError
         end.

(** [float(k)] for an [int] [k] *)
Definition of_int (k : Z) : arith_error + float :=
  if k =? 0 then inr (Zero false)
  else match round_ratio (k <? 0) (Z.abs k) 1 with
       | Some x => inr x
       | None => inl OverflowError
       end.

(** [x * y] on two [float]s; overflow gives an infinity. *)
Definition mul (x y : float) : float :=
  match x, y with
  | NaN, _ | _, NaN => NaN
  | Inf _, Zero _ | Zero _, Inf _ => NaN
  | Inf s, Inf t | Inf s, Finite t _ _ | Finite s _ _, Inf t => Inf (xorb s t)
  | Zero s, Zero t | Zero s, Finite t _ _ | Finite s _ _, Zero t =>
      Zero (xorb s t)
  | Finite s m1 e1, Finite t m2 e2 =>
      let e := e1 + e2 in
      let n := if 0 <=? e then m1 * m2 * 2 ^ e else m1 * m2 in
      let d := if 0 <=? e then 1 else 2 ^ (- e) in
      match round_ratio (xorb s t) n d with
      | Some z => z
      | None => Inf (xorb s t)
      end
  end.

(** [x * k] for a [float] [x] and an [int] [k]: [k] is converted first. *)
Definition mul_int (x : float) (k : Z) : arith_error + float :=
  match of_int k with
  | inl err => inl err
  | inr y => inr (mul x y)
  end.

(** Exact comparison of a [float] with an [int]; [None] for NaN. *)
Definition compare_int (x : float) (k : Z) : option comparison :=
  match x with
  | NaN => None
  | Inf true => Some Lt
  | Inf false => Some Gt
  | Zero _ => Some (0 ?= k)
  | Finite neg m e =>
      let v := if neg then - m else m in
      Some (if 0 <=? e then (v * 2 ^ e ?= k) else (v ?= k * 2 ^ (- e)))
  end.

(** [x <= k] *)
Definition le_int (x : float) (k : Z) : bool :=
  match compare_int x k with
  | Some Lt | Some Eq => true
  | _ => false
  end.

(** [k <= x] *)
Definition int_le (k : Z) (x : float) : bool :=
  match compare_int x k with
  | Some Gt | Some Eq => true
  | _ => false
  end.

(** [x == 0.0], which decides the truth value of a [float] *)
Definition is_zero (x : float) : bool :=
  match x with Zero _ => true | _ => false end.

End PyFloat.

(** ** Gauge colour: [circular_progress_bar] *)

Inductive Color := darkred | lightcoral | orange | lightgreen | darkgreen.

(** The [if]/[elif] chain on [percentage]. *)
Definition bar_color (percentage : PyFloat.float) : Color :=
  if PyFloat.le_int percentage 40 then darkred
  else if PyFloat.int_le 41 percentage && PyFloat.le_int percentage 60
  then lightcoral
  else if PyFloat.int_le 61 percentage && PyFloat.le_int percentage 80
  then orange
  else if PyFloat.int_le 81 percentage && PyFloat.le_int percentage 90
  then lightgreen
  else darkgreen.

(** [percentage = value / max_value * 100] *)
Definition gauge_percentage (value max_value : Z)
  : PyFloat.arith_error + PyFloat.float :=
  match PyFloat.true_divide value max_value with
  | inl err => inl err
  | inr q => PyFloat.mul_int q 100
  end.

(** ** [json.loads]

    The decoder of CPython's [json] module (the C scanner, strict mode) on
    a [str].  Not modelled: the interpreter's recursion limit on deeply
    nested documents and the digit limit of [int] on very long integer
    literals. *)

Module Json.

#[warnings="-register-all"]
Inductive json :=
| JNull
| JBool (b : bool)
| JInt (z : Z)
| JFloat (x : PyFloat.float)
| JStr (s : string)
| JArr (items : list json)
| JObj (pairs : list (string * json)).

(** A [dict] keeps the position of a key's first insertion and the value
    of its last one. *)
Fixpoint dict_set (key : string) (v : json) (pairs : list (string * json))
  : list (string * json) :=
  match pairs with
  | [] => [(key, v)]
  | (k, w) :: rest =>
      if String.eqb k key then (k, v) :: rest
      else (k, w) :: dict_set key v rest
  end.

Fixpoint dict_lookup (key : string) (pairs : list (string * json))
  : option json :=
  match pairs with
  | [] => None
  | (k, w) :: rest => if String.eqb k key then Some w else dict_lookup key rest
  end.

(** Result of one scanning step.  Positions are kept as the number of
    characters still unread, [rem]; the index in the document is its length
    minus [rem].  [wide] tells that an escape denoting a code point above
    U+00FF was decoded on the way: the value then lies outside the text
    model, while the errors met afterwards are still CPython's. *)
Inductive scan (A : Type) :=
| Scanned (v : A) (wide : bool) (rest : string)
| Stop (rem : nat)                  (* StopIteration(idx) *)
| Fail (msg : string) (rem : nat)   (* JSONDecodeError(msg, doc, idx) *)
| NoFuel.
Arguments Scanned {A}.
Arguments Stop {A}.
Arguments Fail {A}.
Arguments NoFuel {A}.

Definition is_ws (c : ascii) : bool :=
  let n := PyStr.code c in (n =? 32) || (n =? 9) || (n =? 10) || (n =? 13).

Fixpoint skip_ws (s : string) : string :=
  match s with
  | String c s' => if is_ws c then skip_ws s' else s
  | EmptyString => s
  end.

Definition hex_value (c : ascii) : option Z :=
  let n := PyStr.code c in
  if (48 <=? n) && (n <=? 57) then Some (n - 48)
  else if (97 <=? n) && (n <=? 102) then Some (n - 87)
  else if (65 <=? n) && (n <=? 70) then Some (n - 55)
  else None.

Definition hex4 (a b c d : ascii) : option Z :=
  match hex_value a, hex_value b, hex_value c, hex_value d with
  | Some x, Some y, Some z, Some w => Some (((x * 16 + y) * 16 + z) * 16 + w)
  | _, _, _, _ => None
  end.

Definition simple_escape (c : ascii) : option ascii :=
  let n := PyStr.code c in
  if n =? 34 then Some c                                   (* quotation mark *)
  else if n =? 92 then Some c                              (* backslash *)
  else if n =? 47 then Some c                              (* solidus *)
  else if n =? 98 then Some (ascii_of_N 8)                 (* b: backspace *)
  else if n =? 102 then Some (ascii_of_N 12)               (* f: form feed *)
  else if n =? 110 then Some (ascii_of_N 10)               (* n: line feed *)
  else if n =? 114 then Some (ascii_of_N 13)               (* r: carriage return *)
  else if n =? 116 then Some (ascii_of_N 9)                (* t: tab *)
  else None.

Definition bad_u : string := "Invalid \uXXXX escape".
Definition unterminated : string := "Unterminated string starting at".

(** [scanstring]: [s] starts after the opening quote, which sits at [begin];
    [acc] holds the characters decoded so far.  An escape [uXXXX] needs its
    four digits and one more character after them.  The two halves of a
    surrogate pair are both wide, so pairs need no case of their own. *)
Fixpoint scanstring (begin : nat) (acc : string) (wide : bool) (s : string)
  : scan string :=
  match s with
  | EmptyString => Fail unterminated begin
  | String c s' =>
      let n := PyStr.code c in
      if n =? 34 then Scanned acc wide s'
      else if n =? 92 then
        match s' with
        | EmptyString => Fail unterminated begin
        | String esc s'' =>
            if PyStr.code esc =? 117 then
              match s'' with
              | String h1 (String h2 (String h3 (String h4 (String _ _ as t)))) =>
                  match hex4 h1 h2 h3 h4 with
                  | None => Fail bad_u (String.length s')
                  | Some u =>
                      if u <=? 255 then
                        scanstring begin
                          (acc ++ String (ascii_of_N (Z.to_N u)) "") wide t
                      else scanstring begin acc true t
                  end
              | _ => Fail bad_u (String.length s')
              end
            else
              match simple_escape esc with
              | Some ch => scanstring begin (acc ++ String ch "") wide s''
              | None => Fail "Invalid \escape" (String.length s)
              end
        end
      else if n <=? 31 then
        Fail "Invalid control character at" (String.length s)
      else scanstring begin (acc ++ String c "") wide s'
  end.

(** The longest prefix of decimal digits, and what follows it. *)
Fixpoint take_digits (s : string) : string * string :=
  match s with
  | String c s' =>
      if PyStr.is_digit c
      then let '(ds, rest) := take_digits s' in (String c ds, rest)
      else (EmptyString, s)
  | EmptyString => (EmptyString, s)
  end.

Fixpoint digits_value (acc : Z) (ds : string) : Z :=
  match ds with
  | String c ds' => digits_value (10 * acc + PyStr.digit_value c) ds'
  | EmptyString => acc
  end.

(** [float(text)] for a literal with integer digits [ip], fraction digits
    [fp] and decimal exponent [ex]. *)
Definition float_of_literal (neg : bool) (ip fp : string) (ex : Z)
  : PyFloat.float :=
  let mant := digits_value (digits_value 0 ip) fp in
  let e10 := ex - Z.of_nat (String.length fp) in
  if mant =? 0 then PyFloat.Zero neg
  else
    let n := if 0 <=? e10 then mant * 10 ^ e10 else mant in
    let d := if 0 <=? e10 then 1 else 10 ^ (- e10) in
    match PyFloat.round_ratio neg n d with
    | Some x => x
    | None => PyFloat.Inf neg
    end.

(** Integer part of a number: [0] or a non-zero digit and more digits. *)
Definition int_part (s : string) : option (string * string) :=
  match s with
  | String c s' =>
      if PyStr.code c =? 48 then Some ("0", s')
      else if PyStr.is_digit c
      then let '(ds, rest) := take_digits s' in Some (String c ds, rest)
      else None
  | EmptyString => None
  end.

(** Fraction: a dot and at least one digit, or nothing. *)
Definition frac_part (s : string) : string * string :=
  match s with
  | String dot (String d _ as s') =>
      if (PyStr.code dot =? 46) && PyStr.is_digit d
      then take_digits s' else (EmptyString, s)
  | _ => (EmptyString, s)
  end.

(** Exponent: [e] or [E], an optional sign and at least one digit, or
    nothing. *)
Definition exp_part (s : string) : option Z * string :=
  match s with
  | String e s1 =>
      if (PyStr.code e =? 101) || (PyStr.code e =? 69) then
        let '(neg, s2) :=
          match s1 with
          | String sg t =>
              if PyStr.code sg =? 45 then (true, t)
              else if PyStr.code sg =? 43 then (false, t)
              else (false, s1)
          | EmptyString => (false, s1)
          end in
        match take_digits s2 with
        | (EmptyString, _) => (None, s)
        | (ds, rest) =>
            let v := digits_value 0 ds in
            (Some (if neg then - v else v), rest)
        end
      else (None, s)
  | EmptyString => (None, s)
  end.

Definition match_number (s : string) : option (json * string) :=
  let '(neg, s1) :=
    match s with
    | String c t => if PyStr.code c =? 45 then (true, t) else (false, s)
    | EmptyString => (false, s)
    end in
  match int_part s1 with
  | None => None
  | Some (ip, s2) =>
      let '(fp, s3) := frac_part s2 in
      let '(ex, s4) := exp_part s3 in
      match fp, ex with
      | EmptyString, None =>
          let v := digits_value 0 ip in
          Some (JInt (if neg then - v else v), s4)
      | _, _ =>
          Some (JFloat (float_of_literal neg ip fp
                          (match ex with Some x => x | None => 0 end)), s4)
      end
  end.

(** [s[n:]] *)
Fixpoint drop (n : nat) (s : string) : string :=
  match n, s with
  | S n', String _ s' => drop n' s'
  | _, _ => s
  end.

(** The constants and numbers: what [scan_once] tries when the value does
    not start a string, an object or an array. *)
Definition scan_atom (s : string) : scan json :=
  let after (word : string) (v : json) : option (scan json) :=
    if String.prefix word s
    then Some (Scanned v false (drop (String.length word) s))
    else None in
  match after "null" JNull with
  | Some r => r
  | None =>
  match after "true" (JBool true) with
  | Some r => r
  | None =>
  match after "false" (JBool false) with
  | Some r => r
  | None =>
  match after "NaN" (JFloat PyFloat.NaN) with
  | Some r => r
  | None =>
  match after "Infinity" (JFloat (PyFloat.Inf false)) with
  | Some r => r
  | None =>
  match after "-Infinity" (JFloat (PyFloat.Inf true)) with
  | Some r => r
  | None =>
  match match_number s with
  | Some (v, rest) => Scanned v false rest
  | None => Stop (String.length s)
  end end end end end end end.

Definition expect_name : string :=
  "Expecting property name enclosed in double quotes".
Definition expect_comma : string := "Expecting ',' delimiter".
Definition expect_colon : string := "Expecting ':' delimiter".

Definition scan_map {A B : Type} (f : A -> B) (r : scan A) : scan B :=
  match r with
  | Scanned v w rest => Scanned (f v) w rest
  | Stop r => Stop r
  | Fail m r => Fail m r
  | NoFuel => NoFuel
  end.

(** [scan_once], with the loops of [_parse_object] and [_parse_array];
    [fuel] bounds the number of calls. *)
Fixpoint scan_once (fuel : nat) (s : string) {struct fuel} : scan json :=
  match fuel with
  | O => NoFuel
  | S fuel' =>
      match s with
      | EmptyString => Stop 0
      | String c s' =>
          let n := PyStr.code c in
          if n =? 34 then
            scan_map JStr (scanstring (String.length s) "" false s')
          else if n =? 123 then
            match skip_ws s' with
            | String close rest as s1 =>
                if PyStr.code close =? 125 then Scanned (JObj []) false rest
                else object_loop fuel' [] false s1
            | EmptyString => object_loop fuel' [] false EmptyString
            end
          else if n =? 91 then
            match skip_ws s' with
            | String close rest as s1 =>
                if PyStr.code close =? 93 then Scanned (JArr []) false rest
                else array_loop fuel' [] false s1
            | EmptyString => array_loop fuel' [] false EmptyString
            end
          else scan_atom s
      end
  end

with object_loop (fuel : nat) (pairs : list (string * json)) (wide : bool)
                 (s : string) {struct fuel} : scan json :=
  match fuel with
  | O => NoFuel
  | S fuel' =>
      match s with
      | String q s' =>
          if PyStr.code q =? 34 then
            match scanstring (String.length s) "" false s' with
            | Scanned key wk s1 =>
                match skip_ws s1 with
                | String colon s2 as s1' =>
                    if PyStr.code colon =? 58 then
                      match scan_once fuel' (skip_ws s2) with
                      | Scanned v wv s3 =>
                          let pairs' := dict_set key v pairs in
                          let wide' := wide || wk || wv in
                          match skip_ws s3 with
                          | String d s4 as s3' =>
                              if PyStr.code d =? 125 then
                                Scanned (JObj pairs') wide' s4
                              else if PyStr.code d =? 44 then
                                object_loop fuel' pairs' wide' (skip_ws s4)
                              else Fail expect_comma (String.length s3')
                          | EmptyString => Fail expect_comma 0
                          end
                      | other => other
                      end
                    else Fail expect_colon (String.length s1')
                | EmptyString => Fail expect_colon 0
                end
            | Stop r => Stop r
            | Fail m r => Fail m r
            | NoFuel => NoFuel
            end
          else Fail expect_name (String.length s)
      | EmptyString => Fail expect_name 0
      end
  end

with array_loop (fuel : nat) (items : list json) (wide : bool) (s : string)
  {struct fuel} : scan json :=
  match fuel with
  | O => NoFuel
  | S fuel' =>
      match scan_once fuel' s with
      | Scanned v wv s1 =>
          let items' := (items ++ [v])%list in
          let wide' := wide || wv in
          match skip_ws s1 with
          | String d s2 as s1' =>
              if PyStr.code d =? 93 then Scanned (JArr items') wide' s2
              else if PyStr.code d =? 44 then
                array_loop fuel' items' wide' (skip_ws s2)
              else Fail expect_comma (String.length s1')
          | EmptyString => Fail expect_comma 0
          end
      | other => other
      end
  end.

Inductive loaded :=
| Decoded (v : json)
| JSONDecodeError (msg : string) (pos : nat)
| BeyondLatin1
| OutOfFuel.

(** [json.loads(doc)] *)
Definition loads (doc : string) : loaded :=
  let len := String.length doc in
  match scan_once (2 * len + 2) (skip_ws doc) with
  | Scanned v wide rest =>
      match skip_ws rest with
      | EmptyString => if wide then BeyondLatin1 else Decoded v
      | extra => JSONDecodeError "Extra data" (len - String.length extra)
      end
  | Stop r => JSONDecodeError "Expecting value" (len - r)
  | Fail m r => JSONDecodeError m (len - r)
  | NoFuel => OutOfFuel
  end.

(** [str(e)] of the [JSONDecodeError] raised at index [pos] of [doc]:
    the message, then the line, the column and the index. *)
Fixpoint line_col (line col : nat) (pos : nat) (doc : string) : nat * nat :=
  match pos, doc with
  | S pos', String c doc' =>
      if PyStr.code c =? 10 then line_col (S line) 1 pos' doc'
      else line_col line (S col) pos' doc'
  | _, _ => (line, col)
  end.

Definition decimal (n : nat) : string :=
  NilZero.string_of_uint (Nat.to_uint n).

Definition error_str (doc msg : string) (pos : nat) : string :=
  let '(line, col) := line_col 1 1 pos doc in
  msg ++ ": line " ++ decimal line ++ " column " ++ decimal col
      ++ " (char " ++ decimal pos ++ ")".

End Json.

(** ** What one run of the script does

    A run is observed through the calls it makes to Streamlit and to the
    model service, in order. *)

(** The literals of the script that hold characters above U+00FF (the
    pictographs of the user interface), by name. *)
Inductive literal :=
| FileTooLarge            (* File size exceeds 2MB. Please upload a smaller file. *)
| UploadedResumeHeading   (* **Uploaded Resume:** *)
| NotAtsFriendly          (* Your resume is not ATS-friendly. *)
| EvaluationComplete      (* Evaluation Complete! *)
| ResultsHeading          (* Your ATS Evaluation Results *)
| RoleStatusHeading       (* **Role Status:** *)
| NotEligibleLine         (* You are not eligible for this job role. *)
| Salary2k                (* Expected Salary: 2k *)
| PleaseUpdateLine        (* Please update your resume for this job role. *)
| Salary4k                (* Expected Salary: 4k *)
| GoodButUpdateLine       (* Good, but you need to update your resume. *)
| Salary5kTo6k            (* Expected Salary: 5k to 6k *)
| PerfectLine             (* Congrats, you are perfect for this job role! *)
| Salary6kTo7k            (* Expected Salary: 6k to 7k *)
| MissingKeywordsHeading  (* **Missing Keywords:** *)
| AtsScoreLabel           (* **ATS Score**: *)
| StrongPointsHeading     (* **Strong Points in Resume:** *)
| SuggestionsHeading      (* **Suggestions for Improvement:** *)
| ConclusionHeading       (* **Conclusion about Resume:** *)
| PleaseUpload.           (* Please upload your resume before submitting! *)

(** An argument of [st.write] and its siblings. *)
Inductive arg :=
| Lit (l : literal)
| Val (v : Json.json).

Definition Str (s : string) : arg := Val (Json.JStr s).

Inductive event :=
| st_error (a : arg)
| st_warning (a : arg)
| st_success (a : arg)
| st_subheader (a : arg)
| st_write (args : list arg)
| st_plotly_chart (percentage : PyFloat.float) (color : Color) (title : string)
| st_image
| st_download_button (file_name : string)
| generate_content (prompt : string).   (* the round trip to the model *)

Inductive exn :=
| AttributeError | ValueError | TypeError | OverflowError | ZeroDivisionError.

(** How a computation ends: with a value, with an exception that nothing
    catches, or outside the model (see [Json.loads]). *)
Inductive result (A : Type) :=
| Ok (a : A)
| Raised (e : exn)
| Unmodelled.
Arguments Ok {A}.
Arguments Raised {A}.
Arguments Unmodelled {A}.

(** [st.cache_data] on [evaluate_resume]: per pair of arguments, the value
    returned and the Streamlit calls to replay on a hit. *)
Definition cache : Type :=
  list ((string * string) * (list event * option string)).

Fixpoint cache_lookup (key : string * string) (c : cache)
  : option (list event * option string) :=
  match c with
  | [] => None
  | ((jd, text), entry) :: rest =>
      if String.eqb jd (fst key) && String.eqb text (snd key)
      then Some entry else cache_lookup key rest
  end.

(** A piece of the script: from the cache before it to the events it
    produces, the cache after it and its result. *)
Definition Script (A : Type) : Type := cache -> list event * cache * result A.

Definition ret {A} (a : A) : Script A := fun c => ([], c, Ok a).

Definition bind {A B} (m : Script A) (k : A -> Script B) : Script B :=
  fun c =>
    match m c with
    | (evs, c', Ok a) =>
        let '(evs', c'', r) := k a c' in ((evs ++ evs')%list, c'', r)
    | (evs, c', Raised e) => (evs, c', Raised e)
    | (evs, c', Unmodelled) => (evs, c', Unmodelled)
    end.

Definition emit (e : event) : Script unit := fun c => ([e], c, Ok tt).
Definition raise {A} (e : exn) : Script A := fun c => ([], c, Raised e).
Definition unmodelled {A} : Script A := fun c => ([], c, Unmodelled).

Declare Scope script_scope.
Delimit Scope script_scope with script.
Notation "x <- m ;; k" := (bind m (fun x => k))
  (at level 61, m at next level, right associativity) : script_scope.
Notation "' pat <- m ;; k" := (bind m (fun x => let pat := x in k))
  (at level 61, pat pattern, m at next level, right associativity)
  : script_scope.
Notation "m ;; k" := (bind m (fun _ => k))
  (at level 61, right associativity) : script_scope.
Open Scope script_scope.

Fixpoint for_each {A} (items : list A) (body : A -> Script unit) : Script unit :=
  match items with
  | [] => ret tt
  | x :: rest => body x ;; for_each rest body
  end.

(** *** The uploaded file and the services around the script *)

(** An upload, as the script sees it: its name, its size in bytes, what
    PyPDF2 makes of it ([inl detail]: [PdfReader] raises; per page,
    [inl detail]: [extract_text] raises) and whether PyMuPDF renders its
    first page ([Some detail]: it raises). *)
Record UploadedFile := {
  name : string;
  size : Z;
  pdf_pages : string + list (string + string);
  preview_failure : option string
}.

(** The model service: for a prompt, the text of the answer, or
    [inl detail] when the call or reading the answer raises. *)
Definition ModelService : Type := string -> string + string.

(** *** [get_gemini_response] *)
Definition get_gemini_response (gemini : ModelService) (input : string)
  : Script (option string) :=
  emit (generate_content input) ;;
  match gemini input with
  | inr text => ret (Some text)
  | inl detail =>
      emit (st_error (Str ("Error communicating with the AI model: " ++ detail))) ;;
      ret None
  end.

(** *** [input_pdf_text] *)

(** The loop over the pages: [text += str(page.extract_text())]. *)
Fixpoint extract_pages (text : string) (pages : list (string + string))
  : string + string :=
  match pages with
  | [] => inr text
  | inl detail :: _ => inl detail
  | inr page_text :: rest => extract_pages (text ++ page_text) rest
  end.

Definition input_pdf_text (uploaded_file : UploadedFile) : Script (option string) :=
  let failed detail :=
    emit (st_error (Str ("Error reading the PDF file: " ++ detail))) ;;
    ret None in
  match pdf_pages uploaded_file with
  | inl detail => failed detail
  | inr pages =>
      match extract_pages "" pages with
      | inl detail => failed detail
      | inr text => ret (Some text)
      end
  end.

(** *** [check_resume_format], called on whatever [input_pdf_text] returned:
    on [None] the first statement, [resume_text.split()], raises. *)
Definition check_resume_format (resume_text : option string)
  : Script (bool * list string) :=
  match resume_text with
  | None => raise AttributeError
  | Some text => ret (format_check text)
  end.

(** *** [pdf_to_image] *)
Definition pdf_to_image (uploaded_file : UploadedFile) : Script bool :=
  match preview_failure uploaded_file with
  | Some detail =>
      emit (st_error (Str ("Error converting PDF to image: " ++ detail))) ;;
      ret false
  | None => ret true
  end.

(** *** [circular_progress_bar] *)
Definition circular_progress_bar (value max_value : Z) (label : string)
  : Script unit :=
  match gauge_percentage value max_value with
  | inl PyFloat.ZeroDivisionError => raise ZeroDivisionError
  | inl PyFloat.OverflowError => raise OverflowError
  | inr percentage =>
      emit (st_plotly_chart percentage (bar_color percentage) label)
  end.

(** *** [evaluate_resume] *)

(** The prompt built at the head of [evaluate_resume]. *)
Definition formatted_prompt (jd_text resume_text : string) : string :=
  if negb (String.eqb jd_text "")
  then "Job Description: " ++ jd_text
       ++ String (ascii_of_N 10) ("Resume Text: " ++ resume_text)
  else "Resume Text: " ++ resume_text.

Definition is_generate_content (e : event) : bool :=
  match e with generate_content _ => true | _ => false end.

Definition evaluate_resume (gemini : ModelService) (jd_text resume_text : string)
  : Script (option string) :=
  fun c =>
    match cache_lookup (jd_text, resume_text) c with
    | Some (replayed, response) => (replayed, c, Ok response)
    | None =>
        match get_gemini_response gemini
                (formatted_prompt jd_text resume_text) c with
        | (evs, c', Ok response) =>
            let shown := filter (fun e => negb (is_generate_content e)) evs in
            (evs, (c' ++ [((jd_text, resume_text), (shown, response))])%list,
             Ok response)
        | other => other
        end
    end.

(** *** Result Interpreter: the body of the [try] block

    [response_data] is whatever [json.loads] returned; the operations below
    are Python's on a value of any type. *)

(** [response_data.get(key, default)]: only a [dict] has [get]. *)
Definition py_get (response_data : Json.json) (key : string) (default : Json.json)
  : Script Json.json :=
  match response_data with
  | Json.JObj pairs =>
      match Json.dict_lookup key pairs with
      | Some v => ret v
      | None => ret default
      end
  | _ => raise AttributeError
  end.

(** [v.replace("%", "")]: only a [str] has [replace]. *)
Definition py_replace_percent (v : Json.json) : Script string :=
  match v with
  | Json.JStr s => ret (PyStr.remove_char "%" s)
  | _ => raise AttributeError
  end.

Definition py_int (s : string) : Script Z :=
  match PyStr.int s with
  | Some z => ret z
  | None => raise ValueError
  end.

(** [int(response_data.get(key, "0").replace("%", ""))] *)
Definition read_percentage (response_data : Json.json) (key : string) : Script Z :=
  field <- py_get response_data key (Json.JStr "0") ;;
  digits <- py_replace_percent field ;;
  py_int digits.

(** Truth value of a Python object. *)
Definition truthy (v : Json.json) : bool :=
  match v with
  | Json.JNull => false
  | Json.JBool b => b
  | Json.JInt z => negb (z =? 0)
  | Json.JFloat x => negb (PyFloat.is_zero x)
  | Json.JStr s => negb (String.eqb s "")
  | Json.JArr items => match items with [] => false | _ => true end
  | Json.JObj pairs => match pairs with [] => false | _ => true end
  end.

Fixpoint chars (s : string) : list string :=
  match s with
  | EmptyString => []
  | String c s' => String c "" :: chars s'
  end.

(** The items of a list that are all [str], if they are. *)
Fixpoint all_str (items : list Json.json) : option (list string) :=
  match items with
  | [] => Some []
  | Json.JStr s :: rest => option_map (cons s) (all_str rest)
  | _ :: _ => None
  end.

(** [", ".join(v)]: [v] is iterated (a list by items, a [str] by
    characters, a [dict] by keys) and every item must be a [str]. *)
Definition join_comma (v : Json.json) : Script string :=
  match v with
  | Json.JArr items =>
      match all_str items with
      | Some strs => ret (PyStr.join ", " strs)
      | None => raise TypeError
      end
  | Json.JStr s => ret (PyStr.join ", " (chars s))
  | Json.JObj pairs => ret (PyStr.join ", " (map fst pairs))
  | _ => raise TypeError
  end.

(** The eligibility bands. *)
Inductive RoleBand := NotEligible | NeedsUpdate | GoodNeedsUpdate | PerfectFit.

(** The [if]/[elif] chain on [match_percentage]; it has no [else]. *)
Definition role_band (match_percentage : Z) : option RoleBand :=
  if (0 <=? match_percentage) && (match_percentage <=? 30)
  then Some NotEligible
  else if (31 <=? match_percentage) && (match_percentage <=? 60)
  then Some NeedsUpdate
  else if (61 <=? match_percentage) && (match_percentage <=? 80)
  then Some GoodNeedsUpdate
  else if (81 <=? match_percentage) && (match_percentage <=? 100)
  then Some PerfectFit
  else None.

(** The two lines written in each branch of the chain. *)
Definition band_lines (b : RoleBand) : literal * literal :=
  match b with
  | NotEligible => (NotEligibleLine, Salary2k)
  | NeedsUpdate => (PleaseUpdateLine, Salary4k)
  | GoodNeedsUpdate => (GoodButUpdateLine, Salary5kTo6k)
  | PerfectFit => (PerfectLine, Salary6kTo7k)
  end.

Definition write_role_status (match_percentage : Z) : Script unit :=
  match role_band match_percentage with
  | Some b =>
      emit (st_write [Lit (fst (band_lines b))]) ;;
      emit (st_write [Lit (snd (band_lines b))])
  | None => ret tt
  end.

(** The branch taken when a job description was given. *)
Definition render_jd_match (response_data : Json.json) : Script unit :=
  match_percentage <- read_percentage response_data "JD Match" ;;
  circular_progress_bar match_percentage 100 "JD Match %" ;;
  emit (st_write [Lit RoleStatusHeading]) ;;
  write_role_status match_percentage ;;
  emit (st_write [Lit MissingKeywordsHeading]) ;;
  missing_keywords <- py_get response_data "MissingKeywords" (Json.JArr []) ;;
  if truthy missing_keywords
  then joined <- join_comma missing_keywords ;; emit (st_write [Str joined])
  else emit (st_write [Str "No keywords are missing. Great job!"]).

(** The branch taken without a job description. *)
Definition render_ats_score (response_data : Json.json) : Script unit :=
  ats_score <- read_percentage response_data "ATS Score" ;;
  circular_progress_bar ats_score 100 "ATS Score" ;;
  emit (st_write [Lit AtsScoreLabel; Val (Json.JInt ats_score)]) ;;
  emit (st_write [Lit StrongPointsHeading]) ;;
  strong_points <- py_get response_data "StrongPoints" (Json.JArr []) ;;
  (if truthy strong_points
   then joined <- join_comma strong_points ;; emit (st_write [Str joined])
   else emit (st_write [Str "No strong points identified."])) ;;
  emit (st_write [Lit SuggestionsHeading]) ;;
  suggestions <- py_get response_data "Suggestions"
                   (Json.JStr "No suggestions provided.") ;;
  emit (st_write [Val suggestions]) ;;
  emit (st_write [Lit ConclusionHeading]) ;;
  conclusion <- py_get response_data "Conclusion"
                  (Json.JStr "No conclusion provided.") ;;
  emit (st_write [Val conclusion]).

(** The [try] block with its [except json.JSONDecodeError] clause; any
    other exception leaves the block uncaught. *)
Definition interpret_response (jd response : string) : Script unit :=
  match Json.loads response with
  | Json.JSONDecodeError msg pos =>
      emit (st_error (Str ("Failed to parse the response: "
                             ++ Json.error_str response msg pos)))
  | Json.Decoded response_data =>
      emit (st_success (Lit EvaluationComplete)) ;;
      emit (st_subheader (Lit ResultsHeading)) ;;
      if negb (String.eqb jd "")
      then render_jd_match response_data
      else render_ats_score response_data
  | Json.BeyondLatin1 | Json.OutOfFuel => unmodelled
  end.

(** *** The script from the upload check to its end

    [jd] is the text area, [uploaded_file] the uploader ([None] when
    empty), [submit] the button. *)

Definition max_upload_size : Z := 2 * 1024 * 1024.

(** [if uploaded_file is not None: ...]: the size check and the preview. *)
Definition show_upload (uploaded_file : option UploadedFile) : Script unit :=
  match uploaded_file with
  | None => ret tt
  | Some f =>
      if max_upload_size <? size f
      then emit (st_error (Lit FileTooLarge))
      else
        emit (st_write [Lit UploadedResumeHeading]) ;;
        img <- pdf_to_image f ;;
        (if img : bool then emit st_image else ret tt) ;;
        emit (st_download_button (name f))
  end.

(** [if submit: ...] *)
Definition on_submit (gemini : ModelService) (jd : string)
                     (uploaded_file : option UploadedFile) : Script unit :=
  match uploaded_file with
  | Some f =>
      text <- input_pdf_text f ;;
      '(ats_friendly, feedback) <- check_resume_format text ;;
      if negb ats_friendly
      then
        emit (st_error (Lit NotAtsFriendly)) ;;
        for_each feedback (fun point => emit (st_write [Str ("- " ++ point)]))
      else
        (* [text] is a [str] here: on [None], [check_resume_format]
           has raised *)
        response <- evaluate_resume gemini jd
                      (match text with Some t => t | None => "" end) ;;
        match response with
        | Some r =>
            if negb (String.eqb r "")
            then interpret_response jd r
            else emit (st_error (Str "Resume evaluation failed."))
        | None => emit (st_error (Str "Resume evaluation failed."))
        end
  | None => emit (st_warning (Lit PleaseUpload))
  end.

Definition script (gemini : ModelService) (jd : string)
                  (uploaded_file : option UploadedFile) (submit : bool)
  : Script unit :=
  show_upload uploaded_file ;;
  if submit then on_submit gemini jd uploaded_file else ret tt.

(** The observations made of a run. *)
Definition events {A} (r : list event * cache * result A) : list event :=
  fst (fst r).
Definition cache_after {A} (r : list event * cache * result A) : cache :=
  snd (fst r).
Definition outcome {A} (r : list event * cache * result A) : result A :=
  snd r.

(** ** Vocabulary of the statements *)


(** The colour the bands of the specification give to an integer. *)
Definition band_color (percentage : Z) : Color :=
  if percentage <=? 40 then darkred
  else if percentage <=? 60 then lightcoral
  else if percentage <=? 80 then orange
  else if percentage <=? 90 then lightgreen
  else darkgreen.

Definition Color_eqb (a b : Color) : bool :=
  match a, b with
  | darkred, darkred | lightcoral, lightcoral | orange, orange
  | lightgreen, lightgreen | darkgreen, darkgreen => true
  | _, _ => false
  end.

(** The gauge of [value] out of 100 is drawn, in the colour of [value]'s
    band. *)
Definition gauge_agrees (value : Z) : bool :=
  match gauge_percentage value 100 with
  | inr percentage => Color_eqb (bar_color percentage) (band_color value)
  | inl _ => false
  end.

Definition newline : string := String (ascii_of_N 10) "".

(** The cache holds Streamlit calls only: a hit replays no call to the
    model. *)
Definition cache_wf (c : cache) : Prop :=
  forall key replayed response,
    cache_lookup key c = Some (replayed, response) ->
    forall prompt, ~ In (generate_content prompt) replayed.

Fixpoint all_digits (s : string) : bool :=
  match s with
  | EmptyString => true
  | String c s' => PyStr.is_digit c && all_digits s'
  end.

(** [s] without its trailing percent signs. *)
Fixpoint rstrip_percent (s : string) : string :=
  match s with
  | EmptyString => EmptyString
  | String c s' =>
      match rstrip_percent s' with
      | EmptyString => if Ascii.eqb c "%" then EmptyString else String c ""
      | rest => String c rest
      end
  end.

Fixpoint has_char (x : ascii) (s : string) : bool :=
  match s with
  | EmptyString => false
  | String c s' => Ascii.eqb c x || has_char x s'
  end.

(** The report of a rejected resume. *)
Definition rejection_report (feedback : list string) : list event :=
  st_error (Lit NotAtsFriendly)
  :: map (fun point => st_write [Str ("- " ++ point)]) feedback.


(** A call with enough fuel for the text it is given does not run out of
    it, and what it leaves unread is shorter than the text. *)
Definition enough_fuel {A} (r : Json.scan A) (s : string) : Prop :=
  r <> Json.NoFuel
  /\ forall v w rest,
      r = Json.Scanned v w rest -> (String.length rest < String.length s)%nat.

(** ** Sample inputs *)

(** [s * n] *)
Fixpoint repeat_n (n : nat) (s : string) : string :=
  match n with
  | O => ""
  | S k => s ++ repeat_n k s
  end.

Definition dq : string := String (ascii_of_N 34) "".
Definition quoted (s : string) : string := dq ++ s ++ dq.

Definition jd_match_75 : string :=
  "{" ++ quoted "JD Match" ++ ": " ++ quoted "75%" ++ "}".

(** A resume of 50 words, on one page. *)
Definition short_resume : UploadedFile :=
  {| name := "resume.pdf"; size := 4096;
     pdf_pages := inr [inr (repeat_n 50 "word ")];
     preview_failure := None |}.

(** An upload that PyPDF2 cannot read. *)
Definition unreadable_upload : UploadedFile :=
  {| name := "resume.pdf"; size := 4096;
     pdf_pages := inl "EOF marker not found";
     preview_failure := Some "Failed to open stream" |}.

(** A readable resume of 300 words with an Experience section, in a file
    one byte over the limit. *)
Definition oversized_upload : UploadedFile :=
  {| name := "resume.pdf"; size := 2 * 1024 * 1024 + 1;
     pdf_pages := inr [inr ("Experience: " ++ repeat_n 299 "word ")];
     preview_failure := None |}.

Definition not_eligible_response : string :=
  "{" ++ quoted "JD Match" ++ ":" ++ quoted "25%" ++ ","
      ++ quoted "MissingKeywords" ++ ":[" ++ quoted "SQL" ++ ","
      ++ quoted "Docker" ++ "]}".

Definition strong_candidate_response : string :=
  "{" ++ quoted "ATS Score" ++ ":" ++ quoted "82%" ++ ","
      ++ quoted "StrongPoints" ++ ":[" ++ quoted "Python" ++ "],"
      ++ quoted "Suggestions" ++ ":" ++ quoted "Add metrics" ++ ","
      ++ quoted "Conclusion" ++ ":" ++ quoted "Strong candidate" ++ "}".

(** A resume of 300 words with an Experience section. *)
Definition good_upload : UploadedFile :=
  {| name := "resume.pdf"; size := 4096;
     pdf_pages := inr [inr ("Experience: " ++ repeat_n 299 "word ")];
     preview_failure := None |}.

(** ** Theme switch: [toggle_theme] *)

(** The start of every run: the test for the theme key of the session state; [None]
    is a session without the key. *)
Definition init_theme (theme : option string) : string :=
  match theme with
  | None => "light"
  | Some t => t
  end.

Definition toggle_theme (theme : string) : string :=
  if String.eqb theme "light" then "dark" else "light".

(** A press of the switch: the callback runs, then the script runs again
    from its start, on a session that now holds the key. *)
Definition press_switch (theme : string) : string :=
  init_theme (Some (toggle_theme theme)).

(** ** More vocabulary *)

(** A piece of the script that neither calls the model nor touches the
    cache. *)
Definition quiet {A} (m : Script A) : Prop :=
  forall c,
    cache_after (m c) = c
    /\ forall prompt, ~ In (generate_content prompt) (events (m c)).

(** The calls to the model among the events of a run. *)
Definition model_calls (evs : list event) : list event :=
  filter is_generate_content evs.

Definition evaluation_failed : event :=
  st_error (Str "Resume evaluation failed.").

Definition no_keywords_missing : string :=
  "No keywords are missing. Great job!".

(** ** More sample inputs *)

(** Two pages that both extract. *)
Definition two_page_upload : UploadedFile :=
  {| name := "cv.pdf"; size := 900;
     pdf_pages := inr [inr "Skills: SQL. "; inr "Education: BSc."];
     preview_failure := None |}.

(** A second page that fails to extract. *)
Definition broken_page_upload : UploadedFile :=
  {| name := "cv.pdf"; size := 900;
     pdf_pages := inr [inr "Skills: SQL. "; inl "bad xref"; inl "later"];
     preview_failure := None |}.

(** ** Vocabulary for rendered answers *)

(** The line written under a list heading: the items joined by commas, or
    the line [fallback] that the script writes for an empty list. *)
Definition items_line (fallback : string) (items : list string) : string :=
  match items with
  | [] => fallback
  | _ => PyStr.join ", " items
  end.

(** A list field of the answer: absent, or an array of strings. *)
Definition list_field (pairs : list (string * Json.json)) (key : string)
                      (items : list string) : Prop :=
  (Json.dict_lookup key pairs = None /\ items = [])
  \/ Json.dict_lookup key pairs = Some (Json.JArr (map Json.JStr items)).

(** A score field of the answer: decimal digits and a percent sign,
    denoting [score]. *)
Definition score_field (pairs : list (string * Json.json)) (key : string)
                       (score : Z) : Prop :=
  exists digits,
    digits <> "" /\ all_digits digits = true
    /\ Json.dict_lookup key pairs = Some (Json.JStr (digits ++ "%"))
    /\ score = Json.digits_value 0 digits.

(** [response_data.get(key, default)] on the pairs of an object. *)
Definition get_or (pairs : list (string * Json.json)) (key : string)
                  (default : Json.json) : Json.json :=
  match Json.dict_lookup key pairs with
  | Some v => v
  | None => default
  end.

(** A well-formed answer to a prompt with a job description. *)
Definition jd_answer_pairs : list (string * Json.json) :=
  [("JD Match", Json.JStr "75%");
   ("MissingKeywords", Json.JArr [Json.JStr "SQL"; Json.JStr "Docker"])].

(** A well-formed answer to a prompt without one, with no conclusion. *)
Definition ats_answer_pairs : list (string * Json.json) :=
  [("ATS Score", Json.JStr "82%");
   ("StrongPoints", Json.JArr []);
   ("Suggestions", Json.JStr "Add metrics")].

(** A double lies strictly between two integers. *)
Definition strictly_between (lo hi : Z) (x : PyFloat.float) : Prop :=
  PyFloat.compare_int x lo = Some Gt /\ PyFloat.compare_int x hi = Some Lt.

(** An upload of [n] pages without any text, as a scan gives. *)
Definition scanned_upload (n : nat) : UploadedFile :=
  {| name := "scan.pdf"; size := 500000;
     pdf_pages := inr (map inr (repeat "" n));
     preview_failure := None |}.

(** ** Captions and reports *)

(** The words of a literal: its text after the pictograph that opens
    it, for those that have one. *)
Definition caption (l : literal) : string :=
  match l with
  | FileTooLarge => "File size exceeds 2MB. Please upload a smaller file."
  | UploadedResumeHeading => "**Uploaded Resume:**"
  | NotAtsFriendly => "Your resume is not ATS-friendly."
  | EvaluationComplete => "Evaluation Complete!"
  | ResultsHeading => "Your ATS Evaluation Results"
  | RoleStatusHeading => "**Role Status:**"
  | NotEligibleLine => "You are not eligible for this job role."
  | Salary2k => "Expected Salary: 2k"
  | PleaseUpdateLine => "Please update your resume for this job role."
  | Salary4k => "Expected Salary: 4k"
  | GoodButUpdateLine => "Good, but you need to update your resume."
  | Salary5kTo6k => "Expected Salary: 5k to 6k"
  | PerfectLine => "Congrats, you are perfect for this job role!"
  | Salary6kTo7k => "Expected Salary: 6k to 7k"
  | MissingKeywordsHeading => "**Missing Keywords:**"
  | AtsScoreLabel => "**ATS Score**:"
  | StrongPointsHeading => "**Strong Points in Resume:**"
  | SuggestionsHeading => "**Suggestions for Improvement:**"
  | ConclusionHeading => "**Conclusion about Resume:**"
  | PleaseUpload => "Please upload your resume before submitting!"
  end.

(** The captions of the lines a run writes with [st.write], in order. *)
Fixpoint written_captions (evs : list event) : list string :=
  match evs with
  | st_write [Lit l] :: rest => caption l :: written_captions rest
  | _ :: rest => written_captions rest
  | [] => []
  end.





(* ================================================================== *)
(** * Properties *)

(** ** Substrings and case *)



Lemma lower_app (a b : string) :
  PyStr.lower (a ++ b) = PyStr.lower a ++ PyStr.lower b.
Proof. induction a; simpl; congruence. Qed.




(** The two tests of [format_check] decide its result. *)
Lemma format_check_cases (text : string) :
  format_check text =
    (negb (word_count text <? 200)%nat && has_section_keyword text,
     ((if (word_count text <? 200)%nat then [too_short_msg] else [])
      ++ (if has_section_keyword text then [] else [missing_sections_msg]))%list).
Proof.
  unfold format_check.
  destruct (word_count text <? 200)%nat, (has_section_keyword text); reflexivity.
Qed.



(** C10. Invariant of the Format Checker: the flag is true exactly when
    no reason is given, at most two reasons are given, no reason is given
    twice, and the too-short reason comes before the missing-sections
    reason whenever both are given. *)
Theorem format_check_invariant (text : string) :
  let ats_friendly := fst (format_check text) in
  let feedback := snd (format_check text) in
  (ats_friendly = true <-> feedback = [])
  /\ (List.length feedback <= 2)%nat
  /\ (feedback = [] \/ feedback = [too_short_msg]
      \/ feedback = [missing_sections_msg]
      \/ feedback = [too_short_msg; missing_sections_msg]).
Proof.
  simpl. rewrite format_check_cases. simpl fst. simpl snd.
  destruct (word_count text <? 200)%nat, (has_section_keyword text); simpl.
  all: repeat split; intros; try discriminate; try lia; tauto.
Qed.

(** ** Running a piece of the script *)

Lemma run_bind {A B} (m : Script A) (k : A -> Script B) (c : cache) :
  bind m k c =
    match m c with
    | (evs, c', Ok a) =>
        let '(evs', c'', r) := k a c' in ((evs ++ evs')%list, c'', r)
    | (evs, c', Raised e) => (evs, c', Raised e)
    | (evs, c', Unmodelled) => (evs, c', Unmodelled)
    end.
Proof. reflexivity. Qed.

Lemma run_emit_then {B} (e : event) (k : Script B) (c : cache) :
  (emit e ;; k) c = let '(evs, c', r) := k c in (e :: evs, c', r).
Proof. reflexivity. Qed.

(** ** Eligibility bands *)

(** C3. On the job-description path every match percentage from 0 to 100
    falls into exactly one band, with inclusive bounds: 0..30 not
    eligible, 31..60 needs update, 61..80 good but needs update, 81..100
    perfect fit; the script writes the two lines of that band and of no
    other: for 0..30 the line that the candidate is not eligible and a
    salary of 2k, for 31..60 the request to update the resume and 4k, for
    61..80 the line good but update and 5k to 6k, for 81..100 the
    congratulation and 6k to 7k. *)
Theorem role_band_partition (match_percentage : Z) (c : cache) :
  0 <= match_percentage <= 100 ->
  exists b,
    role_band match_percentage = Some b
    /\ (b = NotEligible <-> 0 <= match_percentage <= 30)
    /\ (b = NeedsUpdate <-> 31 <= match_percentage <= 60)
    /\ (b = GoodNeedsUpdate <-> 61 <= match_percentage <= 80)
    /\ (b = PerfectFit <-> 81 <= match_percentage <= 100)
    /\ write_role_status match_percentage c
       = ([st_write [Lit (fst (band_lines b))];
           st_write [Lit (snd (band_lines b))]], c, Ok tt)
    /\ (0 <= match_percentage <= 30 ->
        write_role_status match_percentage c
        = ([st_write [Lit NotEligibleLine]; st_write [Lit Salary2k]],
           c, Ok tt))
    /\ (31 <= match_percentage <= 60 ->
        write_role_status match_percentage c
        = ([st_write [Lit PleaseUpdateLine]; st_write [Lit Salary4k]],
           c, Ok tt))
    /\ (61 <= match_percentage <= 80 ->
        write_role_status match_percentage c
        = ([st_write [Lit GoodButUpdateLine]; st_write [Lit Salary5kTo6k]],
           c, Ok tt))
    /\ (81 <= match_percentage <= 100 ->
        write_role_status match_percentage c
        = ([st_write [Lit PerfectLine]; st_write [Lit Salary6kTo7k]],
           c, Ok tt))
    /\ written_captions (events (write_role_status match_percentage c))
       = (if match_percentage <=? 30
          then ["You are not eligible for this job role.";
                "Expected Salary: 2k"]
          else if match_percentage <=? 60
          then ["Please update your resume for this job role.";
                "Expected Salary: 4k"]
          else if match_percentage <=? 80
          then ["Good, but you need to update your resume.";
                "Expected Salary: 5k to 6k"]
          else ["Congrats, you are perfect for this job role!";
                "Expected Salary: 6k to 7k"]).
Proof.
  intros Hrange. unfold write_role_status, role_band.
  destruct (Z.leb_spec 0 match_percentage); [|lia].
  destruct (Z.leb_spec match_percentage 30); simpl.
  { exists NotEligible. repeat split; intros; try lia; try discriminate. }
  destruct (Z.leb_spec 31 match_percentage); [|lia].
  destruct (Z.leb_spec match_percentage 60); simpl.
  { exists NeedsUpdate. repeat split; intros; try lia; try discriminate. }
  destruct (Z.leb_spec 61 match_percentage); [|lia].
  destruct (Z.leb_spec match_percentage 80); simpl.
  { exists GoodNeedsUpdate. repeat split; intros; try lia; try discriminate. }
  destruct (Z.leb_spec 81 match_percentage); [|lia].
  destruct (Z.leb_spec match_percentage 100); [|lia]. simpl.
  exists PerfectFit. repeat split; intros; try lia; try discriminate.
Qed.

Lemma role_band_partition_witness :
  role_band 30 = Some NotEligible
  /\ role_band 31 = Some NeedsUpdate
  /\ write_role_status 31 []
     = ([st_write [Lit PleaseUpdateLine]; st_write [Lit Salary4k]], [], Ok tt)
  /\ written_captions (events (write_role_status 80 []))
     = ["Good, but you need to update your resume.";
        "Expected Salary: 5k to 6k"].
Proof.
  destruct (role_band_partition 30 [] ltac:(lia)) as (b & Hb & H1 & _).
  destruct (role_band_partition 31 [] ltac:(lia))
    as (b' & Hb' & _ & H2 & _ & _ & _ & _ & Hw & _).
  destruct (role_band_partition 80 [] ltac:(lia))
    as (_ & _ & _ & _ & _ & _ & _ & _ & _ & _ & _ & Hc).
  split; [|split; [|split]].
  - rewrite Hb. f_equal. apply H1. lia.
  - rewrite Hb'. f_equal. apply H2. lia.
  - apply Hw. lia.
  - exact Hc.
Defined.

(** Outside 0..100 the chain takes no branch and nothing is written. *)
Lemma role_band_outside (match_percentage : Z) :
  match_percentage < 0 \/ 100 < match_percentage ->
  role_band match_percentage = None.
Proof.
  intros H. unfold role_band.
  repeat match goal with
         | |- context [?a <=? ?b] => destruct (Z.leb_spec a b); simpl; try lia
         end; reflexivity.
Qed.

(** ** Gauge colours *)

Lemma Color_eqb_eq (a b : Color) : Color_eqb a b = true -> a = b.
Proof. destruct a, b; simpl; congruence. Qed.

Lemma gauge_agrees_upto (n : nat) :
  forallb gauge_agrees (map Z.of_nat (seq 0 n)) = true ->
  forall value, 0 <= value < Z.of_nat n -> gauge_agrees value = true.
Proof.
  intros Hall value Hrange. rewrite forallb_forall in Hall. apply Hall.
  apply in_map_iff. exists (Z.to_nat value). split; [lia|].
  apply in_seq. lia.
Qed.

(** C7. For every integer percentage from 0 to 100 the gauge is drawn in
    exactly one colour, that of its band: up to 40 dark red, 41..60 light
    red, 61..80 orange, 81..90 light green, above 90 dark green.  The
    percentage the script compares is the double [value / 100 * 100]. *)
Theorem gauge_color_bands (value : Z) :
  0 <= value <= 100 ->
  exists percentage,
    gauge_percentage value 100 = inr percentage
    /\ (bar_color percentage = darkred <-> value <= 40)
    /\ (bar_color percentage = lightcoral <-> 41 <= value <= 60)
    /\ (bar_color percentage = orange <-> 61 <= value <= 80)
    /\ (bar_color percentage = lightgreen <-> 81 <= value <= 90)
    /\ (bar_color percentage = darkgreen <-> 90 < value).
Proof.
  intros Hrange.
  assert (Hok : gauge_agrees value = true).
  { apply (gauge_agrees_upto 101); [vm_compute; reflexivity | lia]. }
  unfold gauge_agrees in Hok.
  destruct (gauge_percentage value 100) as [|percentage]; [discriminate|].
  exists percentage. split; [reflexivity|].
  apply Color_eqb_eq in Hok. rewrite Hok. unfold band_color.
  repeat match goal with
         | |- context [?a <=? ?b] => destruct (Z.leb_spec a b)
         end.
  all: repeat split; intros; try lia; try discriminate; try reflexivity.
Qed.

Lemma gauge_color_bands_witness :
  exists percentage,
    gauge_percentage 82 100 = inr percentage
    /\ bar_color percentage = lightgreen.
Proof.
  destruct (gauge_color_bands 82 ltac:(lia)) as (p & Hp & _ & _ & _ & H & _).
  exists p. split; [exact Hp | apply H; lia].
Defined.

(** The chain compares a double: between two bands, a value no integer
    score produces, it falls through to the last branch. *)
Example bar_color_between_bands :
  bar_color (PyFloat.Finite false 81 (-1)) = darkgreen.
Proof. reflexivity. Qed.

(** ** Prompt Builder *)

Lemma cache_wf_nil : cache_wf [].
Proof. intros key replayed response H. discriminate. Qed.

Lemma cache_lookup_app (key : string * string) (c : cache) entry :
  cache_lookup key c = None ->
  forall key', cache_lookup key' (c ++ [(key, entry)])%list
               = match cache_lookup key' c with
                 | Some e => Some e
                 | None => if String.eqb (fst key) (fst key')
                              && String.eqb (snd key) (snd key')
                           then Some entry else None
                 end.
Proof.
  intros _ key'. induction c as [|[[jd text] e] c IH]; simpl.
  - destruct key as [jd text]. reflexivity.
  - destruct (String.eqb jd (fst key') && String.eqb text (snd key'));
      [reflexivity | exact IH].
Qed.

Lemma not_generate_content_filter (evs : list event) (prompt : string) :
  ~ In (generate_content prompt)
       (filter (fun e => negb (is_generate_content e)) evs).
Proof. rewrite filter_In. intros [_ H]. discriminate. Qed.

Lemma get_gemini_response_run (gemini : ModelService) (input : string) (c : cache) :
  get_gemini_response gemini input c
  = match gemini input with
    | inr text => ([generate_content input], c, Ok (Some text))
    | inl detail =>
        ([generate_content input;
          st_error (Str ("Error communicating with the AI model: " ++ detail))],
         c, Ok None)
    end.
Proof.
  unfold get_gemini_response. rewrite run_emit_then.
  destruct (gemini input); reflexivity.
Qed.

(** The cached evaluation keeps the cache well formed. *)
Lemma evaluate_resume_cache_wf
    (gemini : ModelService) (jd resume_text : string) (c : cache) :
  cache_wf c -> cache_wf (cache_after (evaluate_resume gemini jd resume_text c)).
Proof.
  intros Hwf. unfold evaluate_resume, cache_after.
  destruct (cache_lookup (jd, resume_text) c) as [[replayed response]|] eqn:Hc;
    [exact Hwf|].
  rewrite get_gemini_response_run.
  destruct (gemini (formatted_prompt jd resume_text)); simpl;
    intros key replayed response Hl prompt;
    rewrite (cache_lookup_app _ _ _ Hc) in Hl;
    destruct (cache_lookup key c) as [[r0 v0]|] eqn:Hk.
  all: try (injection Hl as <- <-; exact (Hwf _ _ _ Hk prompt)).
  all: destruct (_ && _); [|discriminate]; injection Hl as <- <-.
  all: simpl; intuition discriminate.
Qed.

(** C5. The prompt is a function of the job description and the resume
    text alone: with a non-empty job description it is the two-line
    template, with an empty one the resume line only; and the prompt of
    every call the cached evaluation makes to the model is that string. *)
Theorem formatted_prompt_spec
    (gemini : ModelService) (jd resume_text : string) (c : cache) :
  cache_wf c ->
  (jd <> "" ->
   formatted_prompt jd resume_text
   = "Job Description: " ++ jd ++ newline ++ "Resume Text: " ++ resume_text)
  /\ formatted_prompt "" resume_text = "Resume Text: " ++ resume_text
  /\ (forall prompt,
        In (generate_content prompt)
           (events (evaluate_resume gemini jd resume_text c)) ->
        prompt = formatted_prompt jd resume_text).
Proof.
  intros Hwf. split; [|split].
  - intros Hjd. unfold formatted_prompt.
    destruct (String.eqb_spec jd ""); [contradiction|]. reflexivity.
  - reflexivity.
  - intros prompt. unfold evaluate_resume, events.
    destruct (cache_lookup (jd, resume_text) c) as [[replayed response]|] eqn:Hc.
    + simpl. intros Hin. destruct (Hwf _ _ _ Hc _ Hin).
    + rewrite get_gemini_response_run.
      destruct (gemini (formatted_prompt jd resume_text)); simpl;
        intros H; intuition (try discriminate; congruence).
Qed.

Lemma formatted_prompt_spec_witness :
  formatted_prompt "Data engineer" "Skills: SQL"
  = "Job Description: Data engineer" ++ newline ++ "Resume Text: Skills: SQL".
Proof.
  refine (proj1 (formatted_prompt_spec (fun _ => inr "{}") "Data engineer"
                   "Skills: SQL" [] cache_wf_nil) _).
  intros H. discriminate H.
Defined.

(** ** Reading a percentage field *)

Lemma digit_is_plain (c : ascii) :
  PyStr.is_digit c = true ->
  PyStr.int_space c = false /\ Ascii.eqb c "+" = false
  /\ Ascii.eqb c "-" = false /\ Ascii.eqb c "%" = false.
Proof.
  destruct c as [[] [] [] [] [] [] [] []]; intros H;
    try discriminate H; repeat split; reflexivity.
Qed.

Lemma int_digits_all (digits : string) (acc : Z) :
  all_digits digits = true ->
  PyStr.int_digits acc false digits = Some (Json.digits_value acc digits, "").
Proof.
  revert acc; induction digits as [|c d IH]; intros acc H; simpl in *.
  - reflexivity.
  - apply andb_prop in H as [Hc Hd]. rewrite Hc. apply IH, Hd.
Qed.

(** [int] reads a non-empty string of decimal digits as its value. *)
Lemma int_of_digits (digits : string) :
  digits <> "" -> all_digits digits = true ->
  PyStr.int digits = Some (Json.digits_value 0 digits).
Proof.
  destruct digits as [|c d]; [congruence|]. intros _ H. simpl in H.
  apply andb_prop in H as [Hc Hd].
  destruct (digit_is_plain c Hc) as (Hsp & Hplus & Hminus & _).
  unfold PyStr.int. simpl. rewrite Hsp, Hplus, Hminus.
  unfold PyStr.int_unsigned. rewrite Hc, (int_digits_all d _ Hd). reflexivity.
Qed.

Lemma remove_percent_digits (digits : string) :
  all_digits digits = true -> PyStr.remove_char "%" digits = digits.
Proof.
  induction digits as [|c d IH]; simpl; intros H; [reflexivity|].
  apply andb_prop in H as [Hc Hd].
  destruct (digit_is_plain c Hc) as (_ & _ & _ & Hpc).
  rewrite Hpc, (IH Hd). reflexivity.
Qed.

Lemma remove_char_app (x : ascii) (a b : string) :
  PyStr.remove_char x (a ++ b) = PyStr.remove_char x a ++ PyStr.remove_char x b.
Proof.
  induction a as [|c a IH]; simpl; [reflexivity|].
  destruct (Ascii.eqb c x); simpl; now rewrite IH.
Qed.

Lemma append_nil_r (s : string) : s ++ "" = s.
Proof. induction s; simpl; congruence. Qed.

(** Where the only percent signs are trailing ones, removing every percent
    sign, as the script does, strips the trailing ones. *)
Lemma remove_percent_is_rstrip (s : string) :
  has_char "%" (rstrip_percent s) = false ->
  PyStr.remove_char "%" s = rstrip_percent s.
Proof.
  induction s as [|c s IH]; simpl; [reflexivity|].
  destruct (rstrip_percent s) as [|d rest] eqn:Hr.
  - destruct (Ascii.eqb c "%") eqn:Hc; simpl.
    + intros _. apply IH. reflexivity.
    + rewrite Hc. simpl. intros _. rewrite IH; reflexivity.
  - simpl. destruct (Ascii.eqb c "%") eqn:Hc; simpl; [discriminate|].
    intros H. rewrite IH; [reflexivity | exact H].
Qed.

(** Elsewhere it does more: a percent sign inside the digits goes too. *)
Example remove_percent_inside :
  PyStr.int (PyStr.remove_char "%" "7%5") = Some 75
  /\ PyStr.int (rstrip_percent "7%5") = None.
Proof. split; reflexivity. Qed.

Lemma read_percentage_run (pairs : list (string * Json.json)) (key : string)
    (c : cache) :
  read_percentage (Json.JObj pairs) key c
  = match Json.dict_lookup key pairs with
    | Some (Json.JStr s) =>
        match PyStr.int (PyStr.remove_char "%" s) with
        | Some z => ([], c, Ok z)
        | None => ([], c, Raised ValueError)
        end
    | Some _ => ([], c, Raised AttributeError)
    | None => ([], c, Ok 0)
    end.
Proof.
  unfold read_percentage, py_get, py_replace_percent, py_int, bind, ret, raise.
  destruct (Json.dict_lookup key pairs) as [[]|]; simpl; try reflexivity.
  destruct (PyStr.int _); reflexivity.
Qed.

(** C4. On a decoded object, the percentage field is read by stripping its
    trailing percent signs and converting what remains to an integer: a
    field of decimal digits followed by a percent sign yields the number
    the digits denote; an absent field yields 0; and the response whose
    JD Match is 75% yields 75, which selects the band good, needs
    update. *)
Theorem read_percentage_well_formed
    (pairs : list (string * Json.json)) (key : string) (c : cache) :
  (forall field,
      Json.dict_lookup key pairs = Some (Json.JStr field) ->
      has_char "%" (rstrip_percent field) = false ->
      read_percentage (Json.JObj pairs) key c
      = match PyStr.int (rstrip_percent field) with
        | Some z => ([], c, Ok z)
        | None => ([], c, Raised ValueError)
        end)
  /\ (forall digits,
        digits <> "" -> all_digits digits = true ->
        Json.dict_lookup key pairs = Some (Json.JStr (digits ++ "%")) ->
        read_percentage (Json.JObj pairs) key c
        = ([], c, Ok (Json.digits_value 0 digits)))
  /\ (Json.dict_lookup key pairs = None ->
      read_percentage (Json.JObj pairs) key c = ([], c, Ok 0))
  /\ (exists response_data,
        Json.loads jd_match_75 = Json.Decoded response_data
        /\ read_percentage response_data "JD Match" c = ([], c, Ok 75)
        /\ role_band 75 = Some GoodNeedsUpdate).
Proof.
  repeat split.
  - intros field Hf Hp. rewrite read_percentage_run, Hf.
    now rewrite (remove_percent_is_rstrip _ Hp).
  - intros digits Hne Hd Hf. rewrite read_percentage_run, Hf.
    rewrite remove_char_app, (remove_percent_digits _ Hd). simpl.
    rewrite append_nil_r, (int_of_digits _ Hne Hd). reflexivity.
  - intros Hf. rewrite read_percentage_run, Hf. reflexivity.
  - eexists. split; [vm_compute; reflexivity|]. split; reflexivity.
Qed.

Lemma read_percentage_well_formed_witness :
  read_percentage (Json.JObj [("ATS Score", Json.JStr "82%")]) "ATS Score" []
  = ([], [], Ok 82).
Proof.
  refine (proj1 (proj2 (read_percentage_well_formed
                          [("ATS Score", Json.JStr "82%")] "ATS Score" []))
            "82" _ _ _).
  - intros H. discriminate H.
  - reflexivity.
  - reflexivity.
Defined.

(** ** The gate before the model call *)

Lemma for_each_emit {A} (items : list A) (f : A -> event) (c : cache) :
  for_each items (fun x => emit (f x)) c = (map f items, c, Ok tt).
Proof.
  induction items as [|x items IH]; [reflexivity|].
  simpl for_each. rewrite run_emit_then, IH. reflexivity.
Qed.

Lemma input_pdf_text_run (f : UploadedFile) (c : cache) :
  input_pdf_text f c
  = match pdf_pages f with
    | inr pages =>
        match extract_pages "" pages with
        | inr text => ([], c, Ok (Some text))
        | inl detail =>
            ([st_error (Str ("Error reading the PDF file: " ++ detail))],
             c, Ok None)
        end
    | inl detail =>
        ([st_error (Str ("Error reading the PDF file: " ++ detail))],
         c, Ok None)
    end.
Proof.
  unfold input_pdf_text.
  destruct (pdf_pages f) as [detail|pages]; [reflexivity|].
  destruct (extract_pages "" pages); reflexivity.
Qed.

(** What the script shows of the upload involves no call to the model. *)
Lemma show_upload_no_model_call (uploaded_file : option UploadedFile)
    (c : cache) (prompt : string) :
  ~ In (generate_content prompt) (events (show_upload uploaded_file c))
  /\ cache_after (show_upload uploaded_file c) = c
  /\ outcome (show_upload uploaded_file c) = Ok tt.
Proof.
  unfold show_upload, pdf_to_image.
  destruct uploaded_file as [f|]; [|simpl; tauto].
  destruct (max_upload_size <? size f); [simpl; intuition discriminate|].
  destruct (preview_failure f); simpl; intuition discriminate.
Qed.

Lemma on_submit_rejected (gemini : ModelService) (jd : string)
    (f : UploadedFile) (pages : list (string + string)) (text : string)
    (c : cache) :
  pdf_pages f = inr pages ->
  extract_pages "" pages = inr text ->
  fst (format_check text) = false ->
  on_submit gemini jd (Some f) c
  = (rejection_report (snd (format_check text)), c, Ok tt).
Proof.
  intros Hp He Hr. unfold on_submit. rewrite run_bind, input_pdf_text_run, Hp, He.
  unfold check_resume_format. rewrite run_bind. unfold ret at 1.
  destruct (format_check text) as [ats_friendly feedback]. simpl in Hr. subst.
  cbn [negb]. cbv iota beta.
  rewrite run_emit_then, for_each_emit. reflexivity.
Qed.

Lemma short_text_rejected (text : string) :
  (word_count text < 200)%nat -> fst (format_check text) = false.
Proof.
  intros H. rewrite format_check_cases.
  apply Nat.ltb_lt in H. rewrite H. reflexivity.
Qed.

(** C6. When the Format Checker rejects the extracted text, the run ends
    after the report of the reasons, one line each, and the model is never
    called: no call appears among the events of the run and the cache is
    untouched.  A text of fewer than 200 words, with any job description,
    is such a case. *)
Theorem rejected_resume_never_reaches_model
    (gemini : ModelService) (jd : string) (f : UploadedFile)
    (pages : list (string + string)) (text : string) (c : cache) :
  pdf_pages f = inr pages ->
  extract_pages "" pages = inr text ->
  fst (format_check text) = false \/ (word_count text < 200)%nat ->
  let run := script gemini jd (Some f) true c in
  on_submit gemini jd (Some f) c
  = (rejection_report (snd (format_check text)), c, Ok tt)
  /\ (forall prompt, ~ In (generate_content prompt) (events run))
  /\ cache_after run = c
  /\ outcome run = Ok tt.
Proof.
  intros Hp He Hr run.
  assert (Hrej : fst (format_check text) = false).
  { destruct Hr as [Hr|Hr]; [exact Hr | exact (short_text_rejected _ Hr)]. }
  pose proof (on_submit_rejected gemini jd f pages text c Hp He Hrej) as Hs.
  split; [exact Hs|].
  subst run. unfold script. rewrite run_bind.
  pose proof (fun p => show_upload_no_model_call (Some f) c p) as Hshow.
  destruct (show_upload (Some f) c) as [[evs c'] r] eqn:Hu.
  unfold events, cache_after, outcome in Hshow. simpl in Hshow.
  destruct (Hshow "") as (_ & -> & ->). rewrite Hs.
  unfold events, cache_after, outcome. simpl. repeat split.
  intros prompt Hin. apply in_app_or in Hin as [Hin|Hin].
  - exact (proj1 (Hshow prompt) Hin).
  - unfold rejection_report in Hin. simpl in Hin.
    destruct Hin as [Hin|Hin]; [discriminate|].
    apply in_map_iff in Hin as (x & Hx & _). discriminate.
Qed.

Lemma rejected_resume_never_reaches_model_witness :
  on_submit (fun _ => inr "{}") "Data engineer" (Some short_resume) []
  = (rejection_report (snd (format_check (repeat_n 50 "word "))), [], Ok tt).
Proof.
  refine (proj1 (rejected_resume_never_reaches_model
                   (fun _ => inr "{}") "Data engineer" short_resume
                   [inr (repeat_n 50 "word ")] (repeat_n 50 "word ") []
                   eq_refl eq_refl (or_intror _))).
  apply Nat.ltb_lt. vm_compute. reflexivity.
Defined.

(** ** Failed extraction *)

(** After a failed extraction the script goes on to the Format Checker,
    which is handed [None] and raises. *)
Lemma on_submit_failed_extraction (gemini : ModelService) (jd : string)
    (f : UploadedFile) (detail : string) (c : cache) :
  pdf_pages f = inl detail ->
  on_submit gemini jd (Some f) c
  = ([st_error (Str ("Error reading the PDF file: " ++ detail))],
     c, Raised AttributeError).
Proof.
  intros Hp. unfold on_submit. rewrite run_bind, input_pdf_text_run, Hp.
  reflexivity.
Qed.

(** C8, at the failing input.  The extractor reports the error and
    returns [None]; the run then does not stop there: the Format Checker
    is called on [None] and the run ends with an [AttributeError] that
    nothing catches. *)
Theorem unreadable_upload_crashes_format_check :
  let run := script (fun _ => inr "{}") "" (Some unreadable_upload) true [] in
  input_pdf_text unreadable_upload []
  = ([st_error (Str "Error reading the PDF file: EOF marker not found")],
     [], Ok None)
  /\ check_resume_format None [] = ([], [], Raised AttributeError)
  /\ outcome run = Raised AttributeError.
Proof. repeat split. Qed.

(** ** The size limit *)

(** The submit handler never looks at the size of the upload. *)
Lemma on_submit_ignores_size (gemini : ModelService) (jd : string)
    (f : UploadedFile) (n : Z) (c : cache) :
  on_submit gemini jd
    (Some {| name := name f; size := n; pdf_pages := pdf_pages f;
             preview_failure := preview_failure f |}) c
  = on_submit gemini jd (Some f) c.
Proof. reflexivity. Qed.

(** C9, at the failing input.  The size error is shown when the file is
    uploaded, but pressing the button evaluates the file all the same: its
    text is extracted, the model is called and a result is rendered. *)
Theorem oversized_upload_is_evaluated :
  let run := script (fun _ => inr not_eligible_response) "Data engineer"
               (Some oversized_upload) true [] in
  max_upload_size < size oversized_upload
  /\ In (st_error (Lit FileTooLarge)) (events run)
  /\ In (generate_content
           (formatted_prompt "Data engineer"
              ("Experience: " ++ repeat_n 299 "word "))) (events run)
  /\ In (st_write [Lit NotEligibleLine]) (events run)
  /\ outcome run = Ok tt.
Proof.
  vm_compute. repeat split; try reflexivity; tauto.
Qed.

(** ** Responses that do not decode *)







(** ** The decoder never runs out of fuel *)

Lemma skip_ws_length (s : string) :
  (String.length (Json.skip_ws s) <= String.length s)%nat.
Proof.
  induction s as [|c s IH]; simpl; [lia|].
  destruct (Json.is_ws c); simpl; lia.
Qed.

Lemma scanstring_shorter (n : nat) :
  forall s begin acc wide,
    (String.length s <= n)%nat ->
    Json.scanstring begin acc wide s <> Json.NoFuel
    /\ forall v w rest,
        Json.scanstring begin acc wide s = Json.Scanned v w rest ->
        (String.length rest < String.length s)%nat.
Proof.
  induction n as [|n IH]; intros s begin acc wide Hlen.
  - destruct s; [|simpl in Hlen; lia]. simpl. split; [discriminate|discriminate].
  - destruct s as [|c s]; [simpl; split; discriminate|].
    simpl in Hlen. cbn [Json.scanstring].
    destruct (PyStr.code c =? 34).
    { split; [discriminate|]. intros v w rest H. injection H as _ _ <-. simpl. lia. }
    destruct (PyStr.code c =? 92).
    2:{ destruct (PyStr.code c <=? 31); [split; discriminate|].
        destruct (IH s begin (acc ++ String c "") wide ltac:(lia)) as [H1 H2].
        split; [exact H1|]. intros v w rest H. apply H2 in H. simpl. lia. }
    destruct s as [|esc s]; [split; discriminate|].
    destruct (PyStr.code esc =? 117).
    2:{ destruct (Json.simple_escape esc); [|split; discriminate].
        simpl in Hlen.
        destruct (IH s begin (acc ++ String a "") wide ltac:(lia)) as [H1 H2].
        split; [exact H1|]. intros v w rest H. apply H2 in H. simpl. lia. }
    destruct s as [|h1 [|h2 [|h3 [|h4 [|x t]]]]]; try (split; discriminate).
    destruct (Json.hex4 h1 h2 h3 h4); [|split; discriminate].
    simpl in Hlen.
    destruct (z <=? 255).
    + destruct (IH (String x t) begin
                  (acc ++ String (ascii_of_N (Z.to_N z)) "") wide
                  ltac:(simpl; lia)) as [H1 H2].
      split; [exact H1|]. intros v w rest H. apply H2 in H. simpl in *. lia.
    + destruct (IH (String x t) begin acc true ltac:(simpl; lia)) as [H1 H2].
      split; [exact H1|]. intros v w rest H. apply H2 in H. simpl in *. lia.
Qed.

Lemma take_digits_length (s : string) :
  (String.length (snd (Json.take_digits s)) <= String.length s)%nat.
Proof.
  induction s as [|c s IH]; simpl; [lia|].
  destruct (PyStr.is_digit c); [|simpl; lia].
  destruct (Json.take_digits s); simpl in *. lia.
Qed.

Lemma int_part_shorter (s ip rest : string) :
  Json.int_part s = Some (ip, rest) ->
  (String.length rest < String.length s)%nat.
Proof.
  destruct s as [|c s]; simpl; [discriminate|].
  destruct (PyStr.code c =? 48).
  - intros H. injection H as _ <-. lia.
  - destruct (PyStr.is_digit c); [|discriminate].
    pose proof (take_digits_length s).
    destruct (Json.take_digits s). intros H'. injection H' as _ <-. simpl in *. lia.
Qed.

Lemma frac_part_length (s : string) :
  (String.length (snd (Json.frac_part s)) <= String.length s)%nat.
Proof.
  destruct s as [|dot [|d s]]; simpl; try lia.
  destruct ((PyStr.code dot =? 46) && PyStr.is_digit d); [|simpl; lia].
  pose proof (take_digits_length (String d s)). simpl in *. lia.
Qed.

Lemma exp_part_length (s : string) :
  (String.length (snd (Json.exp_part s)) <= String.length s)%nat.
Proof.
  destruct s as [|e s]; simpl; [lia|].
  destruct ((PyStr.code e =? 101) || (PyStr.code e =? 69)); [|simpl; lia].
  destruct s as [|sg t].
  - simpl. lia.
  - destruct (PyStr.code sg =? 45).
    + pose proof (take_digits_length t).
      destruct (Json.take_digits t) as [[|] ?]; simpl in *; lia.
    + destruct (PyStr.code sg =? 43).
      * pose proof (take_digits_length t).
        destruct (Json.take_digits t) as [[|] ?]; simpl in *; lia.
      * pose proof (take_digits_length (String sg t)).
        destruct (Json.take_digits (String sg t)) as [[|] ?]; simpl in *; lia.
Qed.

Lemma match_number_shorter (s : string) (v : Json.json) (rest : string) :
  Json.match_number s = Some (v, rest) ->
  (String.length rest < String.length s)%nat.
Proof.
  unfold Json.match_number.
  set (p := match s with
            | String c t => if PyStr.code c =? 45 then (true, t) else (false, s)
            | EmptyString => (false, s)
            end).
  assert (Hp : (String.length (snd p) <= String.length s)%nat).
  { subst p. destruct s as [|c t]; simpl; [lia|].
    destruct (PyStr.code c =? 45); simpl; lia. }
  destruct p as [neg s1]. simpl in Hp.
  destruct (Json.int_part s1) as [[ip s2]|] eqn:Hi; [|discriminate].
  apply int_part_shorter in Hi.
  pose proof (frac_part_length s2) as Hf.
  destruct (Json.frac_part s2) as [fp s3]. simpl in Hf.
  pose proof (exp_part_length s3) as He.
  destruct (Json.exp_part s3) as [ex s4]. simpl in He.
  destruct fp, ex; intros H; injection H as _ <-; lia.
Qed.

Lemma drop_length (n : nat) (s : string) :
  String.length (Json.drop n s) = (String.length s - n)%nat.
Proof.
  revert s; induction n as [|n IH]; intros [|c s]; simpl; try lia. apply IH.
Qed.

Lemma drop_prefix_shorter (word s : string) :
  String.prefix word s = true -> word <> "" ->
  (String.length (Json.drop (String.length word) s) < String.length s)%nat.
Proof.
  intros Hp Hw. rewrite drop_length.
  destruct word as [|a word]; [congruence|].
  destruct s as [|c s]; [discriminate Hp|]. simpl. lia.
Qed.

Lemma scan_atom_shorter (s : string) :
  Json.scan_atom s <> Json.NoFuel
  /\ forall v w rest,
      Json.scan_atom s = Json.Scanned v w rest ->
      (String.length rest < String.length s)%nat.
Proof.
  unfold Json.scan_atom.
  assert (Hw : forall word (v0 : Json.json),
             String.prefix word s = true -> word <> "" ->
             Json.Scanned v0 false (Json.drop (String.length word) s)
             <> Json.NoFuel
             /\ forall v w rest,
                 Json.Scanned v0 false (Json.drop (String.length word) s)
                 = Json.Scanned v w rest ->
                 (String.length rest < String.length s)%nat).
  { intros word v0 Hp Hne. split; [discriminate|].
    intros v w rest H. injection H as _ _ <-.
    now apply drop_prefix_shorter. }
  destruct (String.prefix "null" s) eqn:E1;
    [apply Hw; [exact E1 | intros Hn; discriminate Hn]|].
  destruct (String.prefix "true" s) eqn:E2;
    [apply Hw; [exact E2 | intros Hn; discriminate Hn]|].
  destruct (String.prefix "false" s) eqn:E3;
    [apply Hw; [exact E3 | intros Hn; discriminate Hn]|].
  destruct (String.prefix "NaN" s) eqn:E4;
    [apply Hw; [exact E4 | intros Hn; discriminate Hn]|].
  destruct (String.prefix "Infinity" s) eqn:E5;
    [apply Hw; [exact E5 | intros Hn; discriminate Hn]|].
  destruct (String.prefix "-Infinity" s) eqn:E6;
    [apply Hw; [exact E6 | intros Hn; discriminate Hn]|].
  destruct (Json.match_number s) as [[v0 r0]|] eqn:Hm.
  - split; [discriminate|]. intros v w rest H.
    injection H as _ _ <-. exact (match_number_shorter _ _ _ Hm).
  - split; discriminate.
Qed.

Lemma enough_fuel_fail {A} (msg : string) (rem : nat) (s : string) :
  enough_fuel (@Json.Fail A msg rem) s.
Proof. split; discriminate. Qed.

Lemma enough_fuel_stop {A} (rem : nat) (s : string) :
  enough_fuel (@Json.Stop A rem) s.
Proof. split; discriminate. Qed.

Lemma enough_fuel_scanned {A} (v : A) (w : bool) (rest s : string) :
  (String.length rest < String.length s)%nat ->
  enough_fuel (Json.Scanned v w rest) s.
Proof. intros H. split; [discriminate|]. intros v' w' r E. now injection E as _ _ <-. Qed.

Lemma enough_fuel_weaken {A} (r : Json.scan A) (s t : string) :
  enough_fuel r s -> (String.length s <= String.length t)%nat ->
  enough_fuel r t.
Proof.
  intros [H1 H2] Hle. split; [exact H1|].
  intros v w rest E. apply H2 in E. lia.
Qed.

Lemma scan_fuel (fuel : nat) :
  (forall s, (2 * String.length s < fuel)%nat ->
             enough_fuel (Json.scan_once fuel s) s)
  /\ (forall pairs w s, (2 * String.length s + 1 < fuel)%nat ->
                        enough_fuel (Json.object_loop fuel pairs w s) s)
  /\ (forall items w s, (2 * String.length s + 1 < fuel)%nat ->
                        enough_fuel (Json.array_loop fuel items w s) s).
Proof.
  induction fuel as [|f (IHonce & IHobj & IHarr)].
  { repeat split; intros; lia. }
  assert (Honce : forall s, (2 * String.length s < S f)%nat ->
                            enough_fuel (Json.scan_once (S f) s) s).
  { intros [|c s'] Hf; [apply enough_fuel_stop|]. simpl in Hf.
    cbn [Json.scan_once].
    pose proof (skip_ws_length s') as Hws.
    destruct (PyStr.code c =? 34).
    { destruct (scanstring_shorter _ s' (String.length (String c s')) "" false
                  (le_n _)) as [H1 H2].
      destruct (Json.scanstring _ _ _ s') eqn:E; simpl;
        try (split; discriminate); [|contradiction].
      apply enough_fuel_scanned. specialize (H2 _ _ _ eq_refl). simpl. lia. }
    destruct (PyStr.code c =? 123).
    { destruct (Json.skip_ws s') as [|close rest] eqn:Es.
      - apply (enough_fuel_weaken _ ""); [apply IHobj; simpl; lia | simpl; lia].
      - destruct (PyStr.code close =? 125).
        + apply enough_fuel_scanned. simpl in *. lia.
        + apply (enough_fuel_weaken _ (String close rest));
            [apply IHobj; simpl in *; lia | simpl in *; lia]. }
    destruct (PyStr.code c =? 91).
    { destruct (Json.skip_ws s') as [|close rest] eqn:Es.
      - apply (enough_fuel_weaken _ ""); [apply IHarr; simpl; lia | simpl; lia].
      - destruct (PyStr.code close =? 93).
        + apply enough_fuel_scanned. simpl in *. lia.
        + apply (enough_fuel_weaken _ (String close rest));
            [apply IHarr; simpl in *; lia | simpl in *; lia]. }
    apply scan_atom_shorter. }
  split; [exact Honce|]. split.
  - intros pairs w [|q s'] Hf; [apply enough_fuel_fail|]. simpl in Hf.
    cbn [Json.object_loop].
    destruct (PyStr.code q =? 34); [|apply enough_fuel_fail].
    destruct (scanstring_shorter _ s' (String.length (String q s')) "" false
                (le_n _)) as [H1 H2].
    destruct (Json.scanstring _ _ _ s') as [key wk s1| | |] eqn:E;
      try (split; discriminate); [|contradiction].
    specialize (H2 _ _ _ eq_refl).
    pose proof (skip_ws_length s1) as Hws1.
    destruct (Json.skip_ws s1) as [|colon s2]; [apply enough_fuel_fail|].
    destruct (PyStr.code colon =? 58); [|apply enough_fuel_fail].
    pose proof (skip_ws_length s2) as Hws2. simpl in Hws1.
    destruct (IHonce (Json.skip_ws s2) ltac:(lia)) as [G1 G2].
    destruct (Json.scan_once f (Json.skip_ws s2)) as [v wv s3| | |] eqn:E2;
      try (split; discriminate); [|contradiction].
    specialize (G2 _ _ _ eq_refl).
    pose proof (skip_ws_length s3) as Hws3.
    destruct (Json.skip_ws s3) as [|d s4]; [apply enough_fuel_fail|].
    simpl in Hws3.
    destruct (PyStr.code d =? 125).
    { apply enough_fuel_scanned. simpl. lia. }
    destruct (PyStr.code d =? 44); [|apply enough_fuel_fail].
    pose proof (skip_ws_length s4) as Hws4.
    apply (enough_fuel_weaken _ (Json.skip_ws s4));
      [apply IHobj; lia | simpl; lia].
  - intros items w s Hf. cbn [Json.array_loop].
    destruct (IHonce s ltac:(lia)) as [G1 G2].
    destruct (Json.scan_once f s) as [v wv s1| | |] eqn:E;
      try (split; discriminate); [|contradiction].
    specialize (G2 _ _ _ eq_refl).
    pose proof (skip_ws_length s1) as Hws1.
    destruct (Json.skip_ws s1) as [|d s2]; [apply enough_fuel_fail|].
    simpl in Hws1.
    destruct (PyStr.code d =? 93).
    { apply enough_fuel_scanned. lia. }
    destruct (PyStr.code d =? 44); [|apply enough_fuel_fail].
    pose proof (skip_ws_length s2) as Hws2.
    apply (enough_fuel_weaken _ (Json.skip_ws s2)); [apply IHarr; lia | lia].
Qed.

(** [json.loads] is decided within its fuel, on every document. *)
Theorem loads_never_out_of_fuel (doc : string) :
  Json.loads doc <> Json.OutOfFuel.
Proof.
  unfold Json.loads.
  pose proof (skip_ws_length doc) as Hws.
  destruct (proj1 (scan_fuel (2 * String.length doc + 2))
              (Json.skip_ws doc) ltac:(lia)) as [H1 _].
  destruct (Json.scan_once _ (Json.skip_ws doc)) as [v w rest| | |];
    try discriminate; [|contradiction].
  destruct (Json.skip_ws rest); [destruct w|]; discriminate.
Qed.

(** ** The scenarios of the specification, run *)

(** A resume of 300 words with an Experience section and no job
    description: the score 82 is shown on a light green gauge. *)
Example scenario_ats_score :
  on_submit (fun _ => inr strong_candidate_response) "" (Some good_upload) []
  = ([generate_content
        (formatted_prompt "" ("Experience: " ++ repeat_n 299 "word "));
      st_success (Lit EvaluationComplete);
      st_subheader (Lit ResultsHeading);
      st_plotly_chart (PyFloat.Finite false 5770237022568448 (-46))
        lightgreen "ATS Score";
      st_write [Lit AtsScoreLabel; Val (Json.JInt 82)];
      st_write [Lit StrongPointsHeading];
      st_write [Str "Python"];
      st_write [Lit SuggestionsHeading];
      st_write [Str "Add metrics"];
      st_write [Lit ConclusionHeading];
      st_write [Str "Strong candidate"]],
     [(("", "Experience: " ++ repeat_n 299 "word "),
       ([], Some strong_candidate_response))],
     Ok tt).
Proof. vm_compute. reflexivity. Qed.

(** The double on that gauge is 82 exactly. *)
Example scenario_ats_score_gauge :
  PyFloat.compare_int (PyFloat.Finite false 5770237022568448 (-46)) 82
  = Some Eq.
Proof. reflexivity. Qed.

(** With a job description and a match of 25%: not eligible, and the
    missing keywords in the order given. *)
Example scenario_jd_match :
  events (on_submit (fun _ => inr not_eligible_response) "Data engineer"
            (Some good_upload) [])
  = [generate_content
       (formatted_prompt "Data engineer"
          ("Experience: " ++ repeat_n 299 "word "));
     st_success (Lit EvaluationComplete);
     st_subheader (Lit ResultsHeading);
     st_plotly_chart (PyFloat.Finite false 7036874417766400 (-48))
       darkred "JD Match %";
     st_write [Lit RoleStatusHeading];
     st_write [Lit NotEligibleLine];
     st_write [Lit Salary2k];
     st_write [Lit MissingKeywordsHeading];
     st_write [Str "SQL, Docker"]].
Proof. vm_compute. reflexivity. Qed.

(** A second run with the same inputs is served from the cache: the model
    is not called again. *)
Example scenario_cached :
  let first := on_submit (fun _ => inr not_eligible_response) "Data engineer"
                 (Some good_upload) [] in
  let second := on_submit (fun _ => inr not_eligible_response) "Data engineer"
                  (Some good_upload) (cache_after first) in
  existsb is_generate_content (events first) = true
  /\ existsb is_generate_content (events second) = false
  /\ outcome second = Ok tt.
Proof. vm_compute. repeat split. Qed.

(** The Format Checker on a text without words, on 50 words and on 300
    words under an Experience heading. *)
Example format_check_samples :
  format_check "" = (false, [too_short_msg; missing_sections_msg])
  /\ format_check (repeat_n 50 "word ") = (false, [too_short_msg; missing_sections_msg])
  /\ format_check ("EDUCATION " ++ repeat_n 50 "word ") = (false, [too_short_msg])
  /\ format_check (repeat_n 300 "word ") = (false, [missing_sections_msg])
  /\ format_check ("Experience: " ++ repeat_n 299 "word ") = (true, []).
Proof. vm_compute. repeat split. Qed.

(** * Further properties of the script *)

(** ** Text extraction *)

Lemma append_assoc (a b c : string) : (a ++ b) ++ c = a ++ b ++ c.
Proof. induction a; simpl; congruence. Qed.

Lemma extract_pages_all (texts : list string) (acc : string) :
  extract_pages acc (map inr texts) = inr (acc ++ String.concat "" texts).
Proof.
  revert acc; induction texts as [|t texts IH]; intros acc; simpl.
  - now rewrite append_nil_r.
  - rewrite IH. f_equal. destruct texts as [|u texts].
    + simpl. now rewrite !append_nil_r.
    + cbn [String.concat]. simpl. now rewrite append_assoc.
Qed.

Lemma extract_pages_failure (texts : list string) (detail : string)
    (rest : list (string + string)) (acc : string) :
  extract_pages acc (map inr texts ++ inl detail :: rest)%list = inl detail.
Proof.
  revert acc; induction texts as [|t texts IH]; intros acc; simpl;
    [reflexivity | apply IH].
Qed.

(** X1. When every page of the upload yields its text, the extractor
    returns the texts of the pages joined in page order, shows nothing and
    does not touch the cache; a document without pages yields the empty
    string, not a failure. *)
Theorem input_pdf_text_joins_pages
    (f : UploadedFile) (texts : list string) (c : cache) :
  pdf_pages f = inr (map inr texts) ->
  input_pdf_text f c = ([], c, Ok (Some (String.concat "" texts))).
Proof.
  intros Hp. rewrite input_pdf_text_run, Hp, extract_pages_all. reflexivity.
Qed.

Lemma input_pdf_text_joins_pages_witness :
  input_pdf_text two_page_upload []
  = ([], [], Ok (Some "Skills: SQL. Education: BSc.")).
Proof.
  exact (input_pdf_text_joins_pages two_page_upload
           ["Skills: SQL. "; "Education: BSc."] [] eq_refl).
Defined.

(** X2. When a page fails to extract, the text of the pages before it is
    dropped: the extractor shows one error, with the detail of the first
    failing page, and returns [None]; it raises nothing. *)
Theorem input_pdf_text_first_failure
    (f : UploadedFile) (texts : list string) (detail : string)
    (rest : list (string + string)) (c : cache) :
  pdf_pages f = inr (map inr texts ++ inl detail :: rest)%list ->
  input_pdf_text f c
  = ([st_error (Str ("Error reading the PDF file: " ++ detail))], c, Ok None).
Proof.
  intros Hp. rewrite input_pdf_text_run, Hp, extract_pages_failure. reflexivity.
Qed.

Lemma input_pdf_text_first_failure_witness :
  input_pdf_text broken_page_upload []
  = ([st_error (Str "Error reading the PDF file: bad xref")], [], Ok None).
Proof.
  exact (input_pdf_text_first_failure broken_page_upload ["Skills: SQL. "]
           "bad xref" [inl "later"] [] eq_refl).
Defined.

(** ** Pieces that leave the model and the cache alone *)

Lemma quiet_ret {A} (a : A) : quiet (ret a).
Proof. intros c. split; [reflexivity | intros p []]. Qed.

Lemma quiet_raise {A} (e : exn) : quiet (@raise A e).
Proof. intros c. split; [reflexivity | intros p []]. Qed.

Lemma quiet_unmodelled {A} : quiet (@unmodelled A).
Proof. intros c. split; [reflexivity | intros p []]. Qed.

Lemma quiet_emit (e : event) : is_generate_content e = false -> quiet (emit e).
Proof.
  intros He c. split; [reflexivity|]. intros p [H|[]]. subst e. discriminate He.
Qed.

Lemma quiet_bind {A B} (m : Script A) (k : A -> Script B) :
  quiet m -> (forall a, quiet (k a)) -> quiet (bind m k).
Proof.
  intros Hm Hk c. unfold bind. specialize (Hm c).
  destruct (m c) as [[evs c'] r]. unfold cache_after, events in Hm.
  simpl in Hm. destruct Hm as [-> Hevs].
  destruct r as [a | e |]; [|split; [reflexivity | exact Hevs]..].
  specialize (Hk a c). destruct (k a c) as [[evs' c''] r'].
  unfold cache_after, events in *. simpl in *. destruct Hk as [-> Hevs'].
  split; [reflexivity|]. intros p Hin.
  apply in_app_or in Hin as [Hin|Hin]; [exact (Hevs p Hin) | exact (Hevs' p Hin)].
Qed.

Lemma quiet_for_each {A} (items : list A) (body : A -> Script unit) :
  (forall x, quiet (body x)) -> quiet (for_each items body).
Proof.
  intros Hb. induction items as [|x items IH]; simpl.
  - apply quiet_ret.
  - apply quiet_bind; [apply Hb | intros _; exact IH].
Qed.

Ltac quiet_step :=
  first
    [ apply quiet_ret
    | apply quiet_raise
    | apply quiet_unmodelled
    | apply quiet_emit; reflexivity
    | apply quiet_for_each; intros
    | apply quiet_bind; [|intros]
    | match goal with
      | |- quiet (match ?x with _ => _ end) => destruct x
      end ].

Lemma quiet_read_percentage (response_data : Json.json) (key : string) :
  quiet (read_percentage response_data key).
Proof.
  unfold read_percentage, py_get, py_replace_percent, py_int.
  repeat quiet_step.
Qed.

Lemma quiet_circular_progress_bar (value max_value : Z) (label : string) :
  quiet (circular_progress_bar value max_value label).
Proof. unfold circular_progress_bar. repeat quiet_step. Qed.

Lemma quiet_interpret_response (jd response : string) :
  quiet (interpret_response jd response).
Proof.
  unfold interpret_response, render_jd_match, render_ats_score,
    write_role_status, join_comma, py_get.
  repeat first [ apply quiet_read_percentage
               | apply quiet_circular_progress_bar
               | quiet_step ].
Qed.

Lemma quiet_show_upload (uploaded_file : option UploadedFile) :
  quiet (show_upload uploaded_file).
Proof. unfold show_upload, pdf_to_image. repeat quiet_step. Qed.

Lemma quiet_input_pdf_text (f : UploadedFile) : quiet (input_pdf_text f).
Proof. unfold input_pdf_text. repeat quiet_step. Qed.

Lemma model_calls_app (a b : list event) :
  model_calls (a ++ b) = (model_calls a ++ model_calls b)%list.
Proof. apply filter_app. Qed.

Lemma model_calls_none (evs : list event) :
  (forall prompt, ~ In (generate_content prompt) evs) <-> model_calls evs = [].
Proof.
  unfold model_calls. induction evs as [|e evs IH]; simpl; [tauto|].
  destruct e; simpl; try (rewrite <- IH; split; intros H; [intros p Hin; apply (H p); now right | intros p [Hd|Hin]; [discriminate | exact (H p Hin)]]).
  split; [intros H; destruct (H prompt); now left | discriminate].
Qed.

Lemma no_replay_filter (evs : list event) :
  model_calls evs = [] ->
  filter (fun e => negb (is_generate_content e)) evs = evs.
Proof.
  unfold model_calls. induction evs as [|e evs IH]; simpl; [reflexivity|].
  destruct (is_generate_content e); simpl; [discriminate|].
  intros H. now rewrite IH.
Qed.

(** ** The cached evaluation *)

Lemma evaluate_resume_run (gemini : ModelService) (jd text : string) (c : cache) :
  evaluate_resume gemini jd text c
  = match cache_lookup (jd, text) c with
    | Some (replayed, response) => (replayed, c, Ok response)
    | None =>
        let prompt := formatted_prompt jd text in
        match gemini prompt with
        | inr answer =>
            ([generate_content prompt],
             (c ++ [((jd, text), ([], Some answer))])%list, Ok (Some answer))
        | inl detail =>
            let shown :=
              st_error (Str ("Error communicating with the AI model: "
                               ++ detail)) in
            ([generate_content prompt; shown],
             (c ++ [((jd, text), ([shown], None))])%list, Ok None)
        end
    end.
Proof.
  unfold evaluate_resume.
  destruct (cache_lookup (jd, text) c) as [[replayed response]|];
    [reflexivity|].
  rewrite get_gemini_response_run.
  destruct (gemini (formatted_prompt jd text)); reflexivity.
Qed.

Lemma cache_lookup_last (key : string * string) (c : cache) entry :
  cache_lookup key c = None ->
  cache_lookup key (c ++ [(key, entry)])%list = Some entry.
Proof.
  intros H. rewrite (cache_lookup_app _ _ _ H), H.
  now rewrite !String.eqb_refl.
Qed.

(** X3. The cached evaluation, called again with the same job description
    and resume text, does not call the model again, whatever the model
    would answer now: it returns what the first call returned, replays
    what the first call showed, and leaves the cache as it is. *)
Theorem evaluate_resume_second_call
    (gemini gemini' : ModelService) (jd text : string) (c : cache) :
  cache_wf c ->
  let first := evaluate_resume gemini jd text c in
  let second := evaluate_resume gemini' jd text (cache_after first) in
  outcome second = outcome first
  /\ cache_after second = cache_after first
  /\ model_calls (events second) = []
  /\ events second
     = filter (fun e => negb (is_generate_content e)) (events first).
Proof.
  intros Hwf first second. subst first second.
  rewrite (evaluate_resume_run gemini).
  destruct (cache_lookup (jd, text) c) as [[replayed response]|] eqn:Hc.
  - change (cache_after (replayed, c, Ok response)) with c.
    rewrite (evaluate_resume_run gemini'), Hc.
    assert (Hq : model_calls replayed = []).
    { apply model_calls_none. exact (Hwf _ _ _ Hc). }
    unfold outcome, cache_after, events. simpl.
    rewrite (no_replay_filter _ Hq). auto.
  - cbv zeta.
    destruct (gemini (formatted_prompt jd text)) as [detail|answer].
    + match goal with
      | |- context [cache_after (?evs, ?c', ?r)] =>
          change (cache_after (evs, c', r)) with c'
      end.
      rewrite (evaluate_resume_run gemini'), (cache_lookup_last _ _ _ Hc).
      repeat split.
    + match goal with
      | |- context [cache_after (?evs, ?c', ?r)] =>
          change (cache_after (evs, c', r)) with c'
      end.
      rewrite (evaluate_resume_run gemini'), (cache_lookup_last _ _ _ Hc).
      repeat split.
Qed.

Lemma evaluate_resume_second_call_witness :
  let first :=
    evaluate_resume (fun _ => inr "{}") "Data engineer" "Skills: SQL" [] in
  events (evaluate_resume (fun _ => inl "quota exceeded") "Data engineer"
            "Skills: SQL" (cache_after first)) = [].
Proof.
  exact (proj2 (proj2 (proj2 (evaluate_resume_second_call
                                (fun _ => inr "{}")
                                (fun _ => inl "quota exceeded")
                                "Data engineer" "Skills: SQL" []
                                cache_wf_nil)))).
Defined.

Lemma evaluate_resume_cache_facts
    (gemini : ModelService) (jd text : string) (c : cache) :
  cache_wf c ->
  let after := cache_after (evaluate_resume gemini jd text c) in
  cache_wf after
  /\ (forall key entry,
        cache_lookup key c = Some entry -> cache_lookup key after = Some entry)
  /\ (List.length after <= S (List.length c))%nat
  /\ (exists entry, cache_lookup (jd, text) after = Some entry).
Proof.
  intros Hwf after. subst after. split; [|split; [|split]].
  - exact (evaluate_resume_cache_wf gemini jd text c Hwf).
  - intros key entry Hk. rewrite evaluate_resume_run.
    destruct (cache_lookup (jd, text) c) as [[replayed response]|] eqn:Hc;
      [exact Hk|].
    cbv zeta. destruct (gemini (formatted_prompt jd text));
      unfold cache_after; simpl; rewrite (cache_lookup_app _ _ _ Hc), Hk;
      reflexivity.
  - rewrite evaluate_resume_run.
    destruct (cache_lookup (jd, text) c) as [[replayed response]|];
      [unfold cache_after; simpl; lia|].
    cbv zeta. destruct (gemini (formatted_prompt jd text));
      unfold cache_after; simpl; rewrite length_app; simpl; lia.
  - rewrite evaluate_resume_run.
    destruct (cache_lookup (jd, text) c) as [[replayed response]|] eqn:Hc.
    + eexists. exact Hc.
    + cbv zeta. destruct (gemini (formatted_prompt jd text));
        unfold cache_after; simpl; eexists; apply (cache_lookup_last _ _ _ Hc).
Qed.

(** X4. The cached evaluation never overwrites or drops an answer, adds
    at most one, and keeps the cache free of model calls to replay; after
    it the cache holds an answer for the pair it was called with. *)
Theorem evaluate_resume_keeps_cache
    (gemini : ModelService) (jd text : string) (c : cache) :
  cache_wf c ->
  let after := cache_after (evaluate_resume gemini jd text c) in
  cache_wf after
  /\ (forall key entry,
        cache_lookup key c = Some entry -> cache_lookup key after = Some entry)
  /\ (List.length after <= S (List.length c))%nat
  /\ (exists entry, cache_lookup (jd, text) after = Some entry).
Proof. exact (evaluate_resume_cache_facts gemini jd text c). Qed.

Lemma evaluate_resume_keeps_cache_witness :
  exists entry,
    cache_lookup ("Data engineer", "Skills: SQL")
      (cache_after (evaluate_resume (fun _ => inr "{}") "Data engineer"
                      "Skills: SQL" [])) = Some entry.
Proof.
  exact (proj2 (proj2 (proj2 (evaluate_resume_keeps_cache
                                (fun _ => inr "{}") "Data engineer"
                                "Skills: SQL" [] cache_wf_nil)))).
Defined.

(** ** The submit handler, path by path *)

Lemma on_submit_no_text (gemini : ModelService) (jd : string)
    (f : UploadedFile) (pages : list (string + string)) (detail : string)
    (c : cache) :
  pdf_pages f = inr pages ->
  extract_pages "" pages = inl detail ->
  on_submit gemini jd (Some f) c
  = ([st_error (Str ("Error reading the PDF file: " ++ detail))],
     c, Raised AttributeError).
Proof.
  intros Hp He. unfold on_submit.
  rewrite run_bind, input_pdf_text_run, Hp, He. reflexivity.
Qed.

Lemma on_submit_accepted (gemini : ModelService) (jd : string)
    (f : UploadedFile) (pages : list (string + string)) (text : string)
    (c : cache) :
  pdf_pages f = inr pages ->
  extract_pages "" pages = inr text ->
  fst (format_check text) = true ->
  on_submit gemini jd (Some f) c
  = let '(evs, c', r) := evaluate_resume gemini jd text c in
    match r with
    | Ok (Some response) =>
        if negb (String.eqb response "")
        then let '(evs2, c2, r2) := interpret_response jd response c' in
             ((evs ++ evs2)%list, c2, r2)
        else ((evs ++ [evaluation_failed])%list, c', Ok tt)
    | Ok None => ((evs ++ [evaluation_failed])%list, c', Ok tt)
    | Raised e => (evs, c', Raised e)
    | Unmodelled => (evs, c', Unmodelled)
    end.
Proof.
  intros Hp He Ha. unfold on_submit.
  rewrite run_bind, input_pdf_text_run, Hp, He.
  unfold check_resume_format. rewrite run_bind. unfold ret at 1.
  destruct (format_check text) as [ats_friendly feedback]. simpl in Ha. subst.
  cbn [negb]. cbv iota beta. rewrite run_bind.
  destruct (evaluate_resume gemini jd text c) as [[evs c'] [[response|]| |]];
    try reflexivity.
  destruct (negb (String.eqb response ""));
    [destruct (interpret_response jd response c') as [[evs2 c2] r2]|];
    reflexivity.
Qed.

(** Every run either leaves the model and the cache alone, or has read an
    accepted text from the upload and consults the cached evaluation once,
    on that text. *)
Lemma script_shape (gemini : ModelService) (jd : string)
    (uploaded_file : option UploadedFile) (submit : bool) (c : cache) :
  let run := script gemini jd uploaded_file submit c in
  (cache_after run = c /\ model_calls (events run) = [])
  \/ (exists f pages text,
        submit = true /\ uploaded_file = Some f
        /\ pdf_pages f = inr pages /\ extract_pages "" pages = inr text
        /\ fst (format_check text) = true
        /\ cache_after run = cache_after (evaluate_resume gemini jd text c)
        /\ model_calls (events run)
           = model_calls (events (evaluate_resume gemini jd text c))).
Proof.
  intros run. subst run. unfold script. rewrite run_bind.
  destruct (quiet_show_upload uploaded_file c) as [Hc Hq].
  apply model_calls_none in Hq.
  destruct (show_upload uploaded_file c) as [[evs0 c0] r0].
  unfold cache_after, events in Hc, Hq. simpl in Hc, Hq. subst c0.
  destruct r0 as [[]| |];
    [|left; unfold cache_after, events; simpl; split; [reflexivity|exact Hq]..].
  destruct submit.
  2:{ left. unfold cache_after, events. simpl.
      rewrite model_calls_app, Hq. split; reflexivity. }
  destruct uploaded_file as [f|].
  2:{ left. unfold cache_after, events. simpl.
      rewrite model_calls_app, Hq. split; reflexivity. }
  destruct (pdf_pages f) as [detail|pages] eqn:Hp.
  { left. rewrite (on_submit_failed_extraction _ _ _ _ _ Hp).
    unfold cache_after, events. simpl.
    rewrite model_calls_app, Hq. split; reflexivity. }
  destruct (extract_pages "" pages) as [detail|text] eqn:He.
  { left. rewrite (on_submit_no_text _ _ _ _ _ _ Hp He).
    unfold cache_after, events. simpl.
    rewrite model_calls_app, Hq. split; reflexivity. }
  destruct (fst (format_check text)) eqn:Ha.
  2:{ left. rewrite (on_submit_rejected _ _ _ _ _ _ Hp He Ha).
      unfold cache_after, events, rejection_report. simpl.
      rewrite model_calls_app, Hq. simpl. split; [reflexivity|].
      apply model_calls_none. intros p Hin.
      apply in_map_iff in Hin as (x & Hx & _). discriminate. }
  right. exists f, pages, text. repeat split; try reflexivity; try assumption.
  - rewrite (on_submit_accepted _ _ _ _ _ _ Hp He Ha).
    destruct (evaluate_resume gemini jd text c) as [[evs c'] [[response|]| |]];
      try reflexivity.
    destruct (negb (String.eqb response "")); [|reflexivity].
    destruct (quiet_interpret_response jd response c') as [Hc2 _].
    destruct (interpret_response jd response c') as [[evs2 c2] r2].
    exact Hc2.
  - rewrite (on_submit_accepted _ _ _ _ _ _ Hp He Ha).
    destruct (evaluate_resume gemini jd text c) as [[evs c'] [[response|]| |]];
      unfold events; simpl; rewrite ?model_calls_app, ?Hq; simpl;
      try reflexivity; try (now rewrite app_nil_r).
    destruct (negb (String.eqb response "")).
    + destruct (quiet_interpret_response jd response c') as [_ Hq2].
      apply model_calls_none in Hq2.
      destruct (interpret_response jd response c') as [[evs2 c2] r2].
      unfold events in Hq2. simpl in *.
      now rewrite !model_calls_app, Hq, Hq2, app_nil_r.
    + simpl. now rewrite !model_calls_app, Hq, app_nil_r.
Qed.

(** ** What a whole run does to the model and the cache *)

Lemma evaluate_resume_model_calls
    (gemini : ModelService) (jd text : string) (c : cache) :
  cache_wf c ->
  model_calls (events (evaluate_resume gemini jd text c))
  = match cache_lookup (jd, text) c with
    | Some _ => []
    | None => [generate_content (formatted_prompt jd text)]
    end.
Proof.
  intros Hwf. rewrite evaluate_resume_run.
  destruct (cache_lookup (jd, text) c) as [[replayed response]|] eqn:Hc.
  - apply model_calls_none. exact (Hwf _ _ _ Hc).
  - cbv zeta. destruct (gemini (formatted_prompt jd text)); reflexivity.
Qed.

Lemma accepted_text (text : string) :
  fst (format_check text) = true ->
  (200 <= word_count text)%nat /\ has_section_keyword text = true.
Proof.
  rewrite format_check_cases. simpl. intros H.
  apply andb_prop in H as [Hw Hk]. split; [|exact Hk].
  destruct (Nat.ltb_spec (word_count text) 200); [discriminate|assumption].
Qed.

(** X5. Whatever the inputs, a run calls the model only after the button
    was pressed on an upload whose pages all extracted, whose text has at
    least 200 words and a section keyword, and for which the cache has no
    answer; the prompt of the call is the one built from the job
    description and that text. *)
Theorem model_called_only_on_accepted_text
    (gemini : ModelService) (jd : string)
    (uploaded_file : option UploadedFile) (submit : bool) (c : cache)
    (prompt : string) :
  cache_wf c ->
  In (generate_content prompt)
     (events (script gemini jd uploaded_file submit c)) ->
  submit = true
  /\ exists f pages text,
       uploaded_file = Some f
       /\ pdf_pages f = inr pages
       /\ extract_pages "" pages = inr text
       /\ (200 <= word_count text)%nat
       /\ has_section_keyword text = true
       /\ cache_lookup (jd, text) c = None
       /\ prompt = formatted_prompt jd text.
Proof.
  intros Hwf Hin.
  assert (Hm : In (generate_content prompt)
                  (model_calls (events (script gemini jd uploaded_file submit c)))).
  { apply filter_In. split; [exact Hin | reflexivity]. }
  destruct (script_shape gemini jd uploaded_file submit c)
    as [[_ Hnone] | (f & pages & text & Hs & Hu & Hp & He & Ha & _ & Hcalls)].
  - rewrite Hnone in Hm. destruct Hm.
  - rewrite Hcalls, (evaluate_resume_model_calls _ _ _ _ Hwf) in Hm.
    destruct (accepted_text _ Ha) as [Hw Hk].
    destruct (cache_lookup (jd, text) c) eqn:Hc; [destruct Hm|].
    destruct Hm as [Hm|[]]. injection Hm as <-.
    split; [exact Hs|]. exists f, pages, text. repeat split; assumption.
Qed.

Lemma model_called_only_on_accepted_text_witness :
  exists f pages text,
    Some good_upload = Some f
    /\ pdf_pages f = inr pages
    /\ extract_pages "" pages = inr text
    /\ (200 <= word_count text)%nat
    /\ has_section_keyword text = true
    /\ cache_lookup ("Data engineer", text) [] = None
    /\ formatted_prompt "Data engineer"
         ("Experience: " ++ repeat_n 299 "word ")
       = formatted_prompt "Data engineer" text.
Proof.
  refine (proj2 (model_called_only_on_accepted_text
                   (fun _ => inr not_eligible_response) "Data engineer"
                   (Some good_upload) true []
                   (formatted_prompt "Data engineer"
                      ("Experience: " ++ repeat_n 299 "word "))
                   cache_wf_nil _)).
  vm_compute. do 3 right. left. reflexivity.
Defined.

(** X6. A run calls the model at most once. *)
Theorem at_most_one_model_call
    (gemini : ModelService) (jd : string)
    (uploaded_file : option UploadedFile) (submit : bool) (c : cache) :
  cache_wf c ->
  (List.length
     (model_calls (events (script gemini jd uploaded_file submit c))) <= 1)%nat.
Proof.
  intros Hwf.
  destruct (script_shape gemini jd uploaded_file submit c)
    as [[_ Hnone] | (f & pages & text & _ & _ & _ & _ & _ & _ & Hcalls)].
  - rewrite Hnone. simpl. lia.
  - rewrite Hcalls, (evaluate_resume_model_calls _ _ _ _ Hwf).
    destruct (cache_lookup (jd, text) c); simpl; lia.
Qed.

Lemma at_most_one_model_call_witness :
  (List.length
     (model_calls
        (events (script (fun _ => inr not_eligible_response) "Data engineer"
                   (Some good_upload) true []))) <= 1)%nat.
Proof.
  exact (at_most_one_model_call (fun _ => inr not_eligible_response)
           "Data engineer" (Some good_upload) true [] cache_wf_nil).
Defined.

(** X7. Invariant of the cache over a run: it stays free of model calls
    to replay, no answer it holds is overwritten or dropped, and it grows
    by at most one answer. *)
Theorem script_keeps_cache
    (gemini : ModelService) (jd : string)
    (uploaded_file : option UploadedFile) (submit : bool) (c : cache) :
  cache_wf c ->
  let after := cache_after (script gemini jd uploaded_file submit c) in
  cache_wf after
  /\ (forall key entry,
        cache_lookup key c = Some entry -> cache_lookup key after = Some entry)
  /\ (List.length after <= S (List.length c))%nat.
Proof.
  intros Hwf after. subst after.
  destruct (script_shape gemini jd uploaded_file submit c)
    as [[-> _] | (f & pages & text & _ & _ & _ & _ & _ & -> & _)].
  - repeat split; [exact Hwf | auto | lia].
  - destruct (evaluate_resume_cache_facts gemini jd text c Hwf)
      as (H1 & H2 & H3 & _).
    repeat split; assumption.
Qed.

Lemma script_keeps_cache_witness :
  (List.length
     (cache_after (script (fun _ => inr not_eligible_response) "Data engineer"
                     (Some good_upload) true [])) <= 1)%nat.
Proof.
  exact (proj2 (proj2 (script_keeps_cache
                         (fun _ => inr not_eligible_response) "Data engineer"
                         (Some good_upload) true [] cache_wf_nil))).
Defined.

(** ** A model that fails or says nothing *)

(** X8. On an accepted text that the cache does not hold, a model call
    that raises is shown with its detail and then as a failed evaluation,
    and an empty answer is shown as a failed evaluation without any attempt
    to decode it; in both cases the run raises nothing. *)
Theorem model_failure_is_reported
    (gemini : ModelService) (jd : string) (f : UploadedFile)
    (pages : list (string + string)) (text : string) (c : cache) :
  pdf_pages f = inr pages ->
  extract_pages "" pages = inr text ->
  fst (format_check text) = true ->
  cache_lookup (jd, text) c = None ->
  let prompt := formatted_prompt jd text in
  (forall detail,
      gemini prompt = inl detail ->
      events (on_submit gemini jd (Some f) c)
      = [generate_content prompt;
         st_error (Str ("Error communicating with the AI model: " ++ detail));
         evaluation_failed]
      /\ outcome (on_submit gemini jd (Some f) c) = Ok tt)
  /\ (gemini prompt = inr "" ->
      events (on_submit gemini jd (Some f) c)
      = [generate_content prompt; evaluation_failed]
      /\ outcome (on_submit gemini jd (Some f) c) = Ok tt).
Proof.
  intros Hp He Ha Hc prompt. subst prompt.
  rewrite (on_submit_accepted _ _ _ _ _ _ Hp He Ha), evaluate_resume_run, Hc.
  cbv zeta. split.
  - intros detail Hg. rewrite Hg. split; reflexivity.
  - intros Hg. rewrite Hg. split; reflexivity.
Qed.

Lemma model_failure_is_reported_witness :
  events (on_submit (fun _ => inl "quota exceeded") "" (Some good_upload) [])
  = [generate_content
       (formatted_prompt "" ("Experience: " ++ repeat_n 299 "word "));
     st_error (Str "Error communicating with the AI model: quota exceeded");
     evaluation_failed].
Proof.
  refine (proj1 (proj1 (model_failure_is_reported
                          (fun _ => inl "quota exceeded") "" good_upload
                          [inr ("Experience: " ++ repeat_n 299 "word ")]
                          ("Experience: " ++ repeat_n 299 "word ") []
                          eq_refl eq_refl _ eq_refl)
                   "quota exceeded" eq_refl)).
  vm_compute. reflexivity.
Defined.

(** ** The upload block *)

(** X9. The size limit of the upload block is inclusive: an upload of at
    most 2 * 1024 * 1024 bytes gets its heading, its preview when the first
    page renders (an error line when it does not) and, either way, its
    download button; a larger one gets the size error and nothing else.
    The block raises nothing. *)
Theorem show_upload_size_limit (f : UploadedFile) (c : cache) :
  (size f <= 2097152 ->
   show_upload (Some f) c
   = ([st_write [Lit UploadedResumeHeading];
       match preview_failure f with
       | None => st_image
       | Some detail =>
           st_error (Str ("Error converting PDF to image: " ++ detail))
       end;
       st_download_button (name f)], c, Ok tt))
  /\ (2097152 < size f ->
      show_upload (Some f) c = ([st_error (Lit FileTooLarge)], c, Ok tt)).
Proof.
  unfold show_upload, max_upload_size, pdf_to_image. split; intros H.
  - destruct (Z.ltb_spec (2 * 1024 * 1024) (size f)); [lia|].
    destruct (preview_failure f); reflexivity.
  - destruct (Z.ltb_spec (2 * 1024 * 1024) (size f)); [reflexivity|lia].
Qed.

Lemma show_upload_size_limit_witness :
  show_upload
    (Some {| name := "cv.pdf"; size := 2097152;
             pdf_pages := inl "EOF marker not found";
             preview_failure := Some "cannot open broken document" |}) []
  = ([st_write [Lit UploadedResumeHeading];
      st_error (Str "Error converting PDF to image: cannot open broken document");
      st_download_button "cv.pdf"], [], Ok tt).
Proof.
  refine (proj1 (show_upload_size_limit
                   {| name := "cv.pdf"; size := 2097152;
                      pdf_pages := inl "EOF marker not found";
                      preview_failure := Some "cannot open broken document" |}
                   []) _).
  simpl. lia.
Defined.

(** ** Decoded answers of another type *)

(** X10. When the answer decodes to anything but an object (an array, a
    string, a number, true, false or null), the success banner and the
    results heading are shown and the run then ends with an
    [AttributeError] that nothing catches, with or without a job
    description. *)
Theorem non_object_answer_crashes
    (jd response : string) (v : Json.json) (c : cache) :
  Json.loads response = Json.Decoded v ->
  (forall pairs, v <> Json.JObj pairs) ->
  interpret_response jd response c
  = ([st_success (Lit EvaluationComplete); st_subheader (Lit ResultsHeading)],
     c, Raised AttributeError).
Proof.
  intros Hl Hv. unfold interpret_response. rewrite Hl.
  destruct v; try (destruct (negb (String.eqb jd "")); reflexivity).
  destruct (Hv pairs eq_refl).
Qed.

Lemma non_object_answer_crashes_witness :
  interpret_response "Data engineer" "[1, 2]" []
  = ([st_success (Lit EvaluationComplete); st_subheader (Lit ResultsHeading)],
     [], Raised AttributeError).
Proof.
  refine (non_object_answer_crashes "Data engineer" "[1, 2]"
            (Json.JArr [Json.JInt 1; Json.JInt 2]) [] _ _).
  - vm_compute. reflexivity.
  - intros pairs H. discriminate H.
Defined.

(** X11. Reading a score field that is present fails in two ways: a value
    that is not a string (a number, say) raises [AttributeError], and a
    string that, once its percent signs are removed, [int] does not accept
    raises [ValueError]. *)
Theorem read_percentage_failures
    (pairs : list (string * Json.json)) (key : string) (v : Json.json)
    (c : cache) :
  Json.dict_lookup key pairs = Some v ->
  ((forall s, v <> Json.JStr s) ->
   read_percentage (Json.JObj pairs) key c = ([], c, Raised AttributeError))
  /\ (forall s,
        v = Json.JStr s -> PyStr.int (PyStr.remove_char "%" s) = None ->
        read_percentage (Json.JObj pairs) key c = ([], c, Raised ValueError)).
Proof.
  intros Hk. rewrite read_percentage_run, Hk. split.
  - intros Hv. destruct v; try reflexivity. destruct (Hv s eq_refl).
  - intros s -> Hi. now rewrite Hi.
Qed.

Lemma read_percentage_failures_witness :
  read_percentage (Json.JObj [("JD Match", Json.JInt 75)]) "JD Match" []
  = ([], [], Raised AttributeError)
  /\ read_percentage (Json.JObj [("JD Match", Json.JStr "75.5%")]) "JD Match" []
     = ([], [], Raised ValueError).
Proof.
  split.
  - refine (proj1 (read_percentage_failures
                     [("JD Match", Json.JInt 75)] "JD Match" (Json.JInt 75) []
                     eq_refl) _).
    intros s H. discriminate H.
  - exact (proj2 (read_percentage_failures
                    [("JD Match", Json.JStr "75.5%")] "JD Match"
                    (Json.JStr "75.5%") [] eq_refl) "75.5%" eq_refl eq_refl).
Defined.

Lemma all_digits_app (a b : string) :
  all_digits (a ++ b) = all_digits a && all_digits b.
Proof.
  induction a as [|c a IH]; simpl; [reflexivity|].
  now rewrite IH, andb_assoc.
Qed.

(** X12. A percent sign between the digits of a score is removed like a
    trailing one: the digits on both sides are read as one number. *)
Theorem read_percentage_inner_percent
    (pairs : list (string * Json.json)) (key : string)
    (before after : string) (c : cache) :
  before <> "" ->
  all_digits before = true -> all_digits after = true ->
  Json.dict_lookup key pairs = Some (Json.JStr (before ++ "%" ++ after)) ->
  read_percentage (Json.JObj pairs) key c
  = ([], c, Ok (Json.digits_value 0 (before ++ after))).
Proof.
  intros Hne Hb Ha Hk. rewrite read_percentage_run, Hk.
  rewrite remove_char_app. simpl.
  rewrite (remove_percent_digits _ Hb), (remove_percent_digits _ Ha).
  rewrite int_of_digits; [reflexivity | |].
  - destruct before; [congruence | discriminate].
  - now rewrite all_digits_app, Hb, Ha.
Qed.

Lemma read_percentage_inner_percent_witness :
  read_percentage (Json.JObj [("JD Match", Json.JStr "7%5")]) "JD Match" []
  = ([], [], Ok 75).
Proof.
  refine (read_percentage_inner_percent
            [("JD Match", Json.JStr "7%5")] "JD Match" "7" "5" []
            _ eq_refl eq_refl eq_refl).
  intros H. discriminate H.
Defined.

(** X13. The chain of role bands has no last branch: for a match
    percentage below 0 or above 100 nothing is written about role or
    salary. *)
Theorem no_role_status_outside_range (match_percentage : Z) (c : cache) :
  match_percentage < 0 \/ 100 < match_percentage ->
  write_role_status match_percentage c = ([], c, Ok tt).
Proof.
  intros H. unfold write_role_status.
  now rewrite (role_band_outside _ H).
Qed.

Lemma no_role_status_outside_range_witness :
  write_role_status 101 [] = ([], [], Ok tt).
Proof.
  refine (no_role_status_outside_range 101 [] _). right. lia.
Defined.

(** ** Well-formed answers are rendered in full *)

Lemma bind_run_eq {A B} (m : Script A) (k : A -> Script B) (c c' c'' : cache)
    (evs evs' : list event) (a : A) (r : result B) :
  m c = (evs, c', Ok a) -> k a c' = (evs', c'', r) ->
  bind m k c = ((evs ++ evs')%list, c'', r).
Proof. intros Hm Hk. unfold bind. now rewrite Hm, Hk. Qed.

Lemma gauge_in_range (value : Z) :
  0 <= value <= 100 ->
  exists percentage,
    gauge_percentage value 100 = inr percentage
    /\ bar_color percentage = band_color value.
Proof.
  intros Hrange.
  assert (Hok : gauge_agrees value = true).
  { apply (gauge_agrees_upto 101); [vm_compute; reflexivity | lia]. }
  unfold gauge_agrees in Hok.
  destruct (gauge_percentage value 100) as [|percentage]; [discriminate|].
  exists percentage. split; [reflexivity | now apply Color_eqb_eq].
Qed.

Lemma role_band_in_range (value : Z) :
  0 <= value <= 100 -> exists b, role_band value = Some b.
Proof.
  intros H. unfold role_band.
  repeat match goal with
         | |- context [?a <=? ?b] => destruct (Z.leb_spec a b); simpl; try lia
         end; eexists; reflexivity.
Qed.

Lemma digit_value_nonneg (c : ascii) :
  PyStr.is_digit c = true -> 0 <= PyStr.digit_value c.
Proof.
  unfold PyStr.is_digit, PyStr.digit_value. intros H.
  apply andb_prop in H as [H _]. apply Z.leb_le in H. lia.
Qed.

Lemma digits_value_nonneg (digits : string) (acc : Z) :
  all_digits digits = true -> 0 <= acc -> 0 <= Json.digits_value acc digits.
Proof.
  revert acc; induction digits as [|c d IH]; intros acc H Hacc;
    cbn [Json.digits_value all_digits] in *; [exact Hacc|].
  apply andb_prop in H as [Hc Hd]. apply IH; [exact Hd|].
  pose proof (digit_value_nonneg c Hc). lia.
Qed.

Lemma score_field_read (pairs : list (string * Json.json)) (key : string)
    (score : Z) (c : cache) :
  score_field pairs key score ->
  read_percentage (Json.JObj pairs) key c = ([], c, Ok score) /\ 0 <= score.
Proof.
  intros (digits & Hne & Hd & Hk & ->). split.
  - rewrite read_percentage_run, Hk, remove_char_app,
      (remove_percent_digits _ Hd). simpl.
    now rewrite append_nil_r, (int_of_digits _ Hne Hd).
  - apply digits_value_nonneg; [exact Hd | lia].
Qed.

Lemma all_str_map (items : list string) :
  all_str (map Json.JStr items) = Some items.
Proof.
  induction items as [|x items IH]; simpl; [reflexivity | now rewrite IH].
Qed.

Lemma py_get_run (pairs : list (string * Json.json)) (key : string)
    (default : Json.json) (c : cache) :
  py_get (Json.JObj pairs) key default c
  = ([], c, Ok (get_or pairs key default)).
Proof.
  unfold py_get, get_or. destruct (Json.dict_lookup key pairs); reflexivity.
Qed.

(** The line under the heading of a list field, as the script writes
    it. *)
Lemma items_written (pairs : list (string * Json.json)) (key : string)
    (items : list string) (fallback : string) (c : cache) :
  list_field pairs key items ->
  (if truthy (get_or pairs key (Json.JArr []))
   then joined <- join_comma (get_or pairs key (Json.JArr [])) ;;
        emit (st_write [Str joined])
   else emit (st_write [Str fallback])) c
  = ([st_write [Str (items_line fallback items)]], c, Ok tt).
Proof.
  intros [[Hk ->] | Hk]; unfold get_or; rewrite Hk; [reflexivity|].
  destruct items as [|x items]; [reflexivity|].
  cbn [truthy map]. unfold bind, join_comma.
  change (Json.JStr x :: map Json.JStr items)
    with (map Json.JStr (x :: items)).
  rewrite all_str_map. reflexivity.
Qed.

(** X14. With a job description, an answer whose JD Match is a number of
    at most 100 followed by a percent sign, and whose MissingKeywords is
    absent or an array of strings, is rendered in full and without an
    exception: the gauge in the colour of the band of the number, the role
    and salary lines of its eligibility band, and the keywords joined by
    commas, or the line that none is missing. *)
Theorem jd_answer_rendered
    (pairs : list (string * Json.json)) (score : Z) (keywords : list string)
    (c : cache) :
  score_field pairs "JD Match" score ->
  score <= 100 ->
  list_field pairs "MissingKeywords" keywords ->
  exists percentage band,
    gauge_percentage score 100 = inr percentage
    /\ role_band score = Some band
    /\ render_jd_match (Json.JObj pairs) c
       = ([st_plotly_chart percentage (band_color score) "JD Match %";
           st_write [Lit RoleStatusHeading];
           st_write [Lit (fst (band_lines band))];
           st_write [Lit (snd (band_lines band))];
           st_write [Lit MissingKeywordsHeading];
           st_write [Str (items_line no_keywords_missing keywords)]],
          c, Ok tt).
Proof.
  intros Hs Hle Hk.
  destruct (score_field_read _ _ _ c Hs) as [Hread Hge].
  destruct (gauge_in_range score ltac:(lia)) as (percentage & Hg & Hcol).
  destruct (role_band_in_range score ltac:(lia)) as (band & Hb).
  exists percentage, band. split; [exact Hg|]. split; [exact Hb|].
  unfold render_jd_match. etransitivity.
  { eapply bind_run_eq; [exact Hread|].
    eapply bind_run_eq;
      [unfold circular_progress_bar; rewrite Hg, Hcol; reflexivity|].
    eapply bind_run_eq; [reflexivity|].
    eapply bind_run_eq; [unfold write_role_status; rewrite Hb; reflexivity|].
    eapply bind_run_eq; [reflexivity|].
    eapply bind_run_eq; [apply py_get_run|].
    exact (items_written _ _ _ no_keywords_missing c Hk). }
  reflexivity.
Qed.

Lemma jd_answer_rendered_witness :
  exists percentage band,
    gauge_percentage 75 100 = inr percentage
    /\ role_band 75 = Some band
    /\ render_jd_match (Json.JObj jd_answer_pairs) []
       = ([st_plotly_chart percentage orange "JD Match %";
           st_write [Lit RoleStatusHeading];
           st_write [Lit (fst (band_lines band))];
           st_write [Lit (snd (band_lines band))];
           st_write [Lit MissingKeywordsHeading];
           st_write [Str "SQL, Docker"]],
          [], Ok tt).
Proof.
  refine (jd_answer_rendered jd_answer_pairs 75 ["SQL"; "Docker"] [] _ _ _).
  - exists "75". repeat split. intros H. discriminate H.
  - lia.
  - right. reflexivity.
Defined.

(** X15. Without a job description, an answer whose ATS Score is a number
    of at most 100 followed by a percent sign, and whose StrongPoints is
    absent or an array of strings, is rendered in full and without an
    exception: the gauge, the score as an integer, the strong points joined
    by commas or the line that none was identified, and the suggestions and
    the conclusion as the answer gives them, whatever their type, or their
    stock sentences when it does not. *)
Theorem ats_answer_rendered
    (pairs : list (string * Json.json)) (score : Z) (points : list string)
    (c : cache) :
  score_field pairs "ATS Score" score ->
  score <= 100 ->
  list_field pairs "StrongPoints" points ->
  exists percentage,
    gauge_percentage score 100 = inr percentage
    /\ render_ats_score (Json.JObj pairs) c
       = ([st_plotly_chart percentage (band_color score) "ATS Score";
           st_write [Lit AtsScoreLabel; Val (Json.JInt score)];
           st_write [Lit StrongPointsHeading];
           st_write [Str (items_line "No strong points identified." points)];
           st_write [Lit SuggestionsHeading];
           st_write [Val (get_or pairs "Suggestions"
                            (Json.JStr "No suggestions provided."))];
           st_write [Lit ConclusionHeading];
           st_write [Val (get_or pairs "Conclusion"
                            (Json.JStr "No conclusion provided."))]],
          c, Ok tt).
Proof.
  intros Hs Hle Hk.
  destruct (score_field_read _ _ _ c Hs) as [Hread Hge].
  destruct (gauge_in_range score ltac:(lia)) as (percentage & Hg & Hcol).
  exists percentage. split; [exact Hg|].
  unfold render_ats_score. etransitivity.
  { eapply bind_run_eq; [exact Hread|].
    eapply bind_run_eq;
      [unfold circular_progress_bar; rewrite Hg, Hcol; reflexivity|].
    eapply bind_run_eq; [reflexivity|].
    eapply bind_run_eq; [reflexivity|].
    eapply bind_run_eq; [apply py_get_run|].
    eapply bind_run_eq;
      [exact (items_written _ _ _ "No strong points identified." c Hk)|].
    eapply bind_run_eq; [reflexivity|].
    eapply bind_run_eq; [apply py_get_run|].
    eapply bind_run_eq; [reflexivity|].
    eapply bind_run_eq; [reflexivity|].
    eapply bind_run_eq; [apply py_get_run|].
    reflexivity. }
  reflexivity.
Qed.

Lemma ats_answer_rendered_witness :
  exists percentage,
    gauge_percentage 82 100 = inr percentage
    /\ render_ats_score (Json.JObj ats_answer_pairs) []
       = ([st_plotly_chart percentage lightgreen "ATS Score";
           st_write [Lit AtsScoreLabel; Val (Json.JInt 82)];
           st_write [Lit StrongPointsHeading];
           st_write [Str "No strong points identified."];
           st_write [Lit SuggestionsHeading];
           st_write [Str "Add metrics"];
           st_write [Lit ConclusionHeading];
           st_write [Str "No conclusion provided."]],
          [], Ok tt).
Proof.
  refine (ats_answer_rendered ats_answer_pairs 82 [] [] _ _ _).
  - exists "82". repeat split. intros H. discriminate H.
  - lia.
  - right. reflexivity.
Defined.

(** ** Percentages between the colour bands *)

(** A double compares with the integers as a fraction [v / d] does, unless
    it is infinite or not a number. *)
Lemma compare_int_view (x : PyFloat.float) :
  x = PyFloat.NaN \/ (exists neg, x = PyFloat.Inf neg)
  \/ exists v d, 0 < d
                 /\ forall k, PyFloat.compare_int x k = Some (v ?= k * d).
Proof.
  destruct x as [neg | neg m e | neg |]; [| | right; left; now exists neg | now left].
  - right. right. exists 0, 1. split; [lia|]. intros k.
    unfold PyFloat.compare_int. now rewrite Z.mul_1_r.
  - right. right. unfold PyFloat.compare_int.
    destruct (Z.leb_spec 0 e).
    + exists ((if neg then - m else m) * 2 ^ e), 1. split; [lia|].
      intros k. now rewrite Z.mul_1_r.
    + exists (if neg then - m else m), (2 ^ (- e)). split; [|reflexivity].
      apply Z.pow_pos_nonneg; lia.
Qed.

(** X16. The colour chain tests whole-number bounds on a double: a
    percentage strictly between 40 and 41, between 60 and 61 or between 80
    and 81 belongs to no band and is drawn dark green, the colour of the
    last branch. *)
Theorem bar_color_between_bands_is_darkgreen (percentage : PyFloat.float) :
  strictly_between 40 41 percentage
  \/ strictly_between 60 61 percentage
  \/ strictly_between 80 81 percentage ->
  bar_color percentage = darkgreen.
Proof.
  unfold strictly_between. intros H.
  destruct (compare_int_view percentage)
    as [-> | [[neg ->] | (v & d & Hd & Hcmp)]].
  - destruct H as [[H _] | [[H _] | [H _]]]; discriminate H.
  - destruct neg; destruct H as [[H1 H2] | [[H1 H2] | [H1 H2]]];
      discriminate.
  - unfold bar_color, PyFloat.le_int, PyFloat.int_le.
    rewrite !Hcmp in H. rewrite !Hcmp.
    assert (Hgap : 40 * d < v < 41 * d \/ 60 * d < v < 61 * d
                   \/ 80 * d < v < 81 * d).
    { destruct H as [[H1 H2] | [[H1 H2] | [H1 H2]]];
        match type of H1 with
        | Some (?a ?= ?b) = _ =>
            assert (G1 : b < a) by (apply Z.compare_gt_iff; congruence)
        end;
        match type of H2 with
        | Some (?a ?= ?b) = _ =>
            assert (G2 : a < b) by (apply Z.compare_lt_iff; congruence)
        end; lia. }
    clear H.
    repeat match goal with
           | |- context [?a ?= ?b] => destruct (Z.compare_spec a b); try lia
           end; reflexivity.
Qed.

Lemma bar_color_between_bands_is_darkgreen_witness :
  gauge_percentage 81 200 = inr (PyFloat.Finite false 5699868278390784 (-47))
  /\ bar_color (PyFloat.Finite false 5699868278390784 (-47)) = darkgreen.
Proof.
  split; [vm_compute; reflexivity|].
  apply bar_color_between_bands_is_darkgreen. left. split; reflexivity.
Defined.

(** ** How short an accepted text can be *)

Lemma append_char_not_empty (word : string) (c : ascii) :
  String.eqb (word ++ String c "") "" = false.
Proof. destruct word; reflexivity. Qed.

(** Words are separated by whitespace and hold a character each: twice
    their number is at most the length of the text, plus one. *)
Lemma split_from_length (s word : string) :
  (2 * List.length (PyStr.split_from word s)
   <= String.length s + (if String.eqb word "" then 1 else 2))%nat.
Proof.
  revert word; induction s as [|c s IH]; intros word; simpl.
  - destruct (String.eqb word ""); simpl; lia.
  - destruct (PyStr.isspace c).
    + specialize (IH ""). simpl in IH.
      destruct (String.eqb word ""); simpl; lia.
    + specialize (IH (word ++ String c "")).
      rewrite append_char_not_empty in IH.
      destruct (String.eqb word ""); lia.
Qed.

(** X17. The Format Checker never accepts a text of fewer than 399
    characters: 200 words need a character each and a blank between
    them. *)
Theorem accepted_text_is_long (text : string) :
  fst (format_check text) = true -> (399 <= String.length text)%nat.
Proof.
  intros H. destruct (accepted_text _ H) as [Hw _].
  pose proof (split_from_length text "") as Hs.
  unfold word_count, PyStr.split in Hw. simpl in Hs. lia.
Qed.

Lemma accepted_text_is_long_witness :
  (399 <= String.length ("Experience: " ++ repeat_n 299 "word "))%nat.
Proof.
  apply accepted_text_is_long. vm_compute. reflexivity.
Defined.

Lemma concat_empty_pages (n : nat) : String.concat "" (repeat "" n) = "".
Proof.
  induction n as [|n IH]; [reflexivity|].
  simpl. destruct (repeat "" n); [reflexivity | exact IH].
Qed.

(** X18. A document whose pages all extract to the empty text, as a scan
    gives, is not an extraction failure: it reaches the Format Checker and
    is rejected there with both reasons; the model is not called. *)
Theorem scanned_document_is_rejected
    (gemini : ModelService) (jd : string) (f : UploadedFile) (n : nat)
    (c : cache) :
  pdf_pages f = inr (map inr (repeat "" n)) ->
  on_submit gemini jd (Some f) c
  = ([st_error (Lit NotAtsFriendly);
      st_write [Str ("- " ++ too_short_msg)];
      st_write [Str ("- " ++ missing_sections_msg)]], c, Ok tt).
Proof.
  intros Hp.
  assert (He : extract_pages "" (map inr (repeat "" n)) = inr "").
  { now rewrite extract_pages_all, concat_empty_pages. }
  exact (on_submit_rejected gemini jd f _ "" c Hp He eq_refl).
Qed.

Lemma scanned_document_is_rejected_witness :
  on_submit (fun _ => inr "{}") "Data engineer" (Some (scanned_upload 3)) []
  = ([st_error (Lit NotAtsFriendly);
      st_write [Str ("- " ++ too_short_msg)];
      st_write [Str ("- " ++ missing_sections_msg)]], [], Ok tt).
Proof.
  exact (scanned_document_is_rejected (fun _ => inr "{}") "Data engineer"
           (scanned_upload 3) 3 [] eq_refl).
Defined.

(** ** The theme switch *)

(** X19. In a fresh session the theme is light, and after any number of
    presses of the switch it is light when the number is even and dark
    when it is odd; whatever the session held before, after a press the
    theme is one of the two. *)
Theorem theme_after_presses (presses : nat) (held : option string) :
  Nat.iter presses press_switch (init_theme None)
  = (if Nat.even presses then "light" else "dark")
  /\ (let theme := Nat.iter (S presses) press_switch (init_theme held) in
      theme = "light" \/ theme = "dark").
Proof.
  split.
  - induction presses as [|n IH]; [reflexivity|].
    change (Nat.iter (S n) press_switch (init_theme None))
      with (toggle_theme (Nat.iter n press_switch (init_theme None))).
    rewrite IH, Nat.even_succ, <- Nat.negb_even.
    destruct (Nat.even n); reflexivity.
  - cbv zeta. induction presses as [|n IH].
    + simpl. unfold press_switch, toggle_theme, init_theme at 1.
      destruct (String.eqb (init_theme held) "light"); auto.
    + change (Nat.iter (S (S n)) press_switch (init_theme held))
        with (toggle_theme (Nat.iter (S n) press_switch (init_theme held))).
      destruct IH as [-> | ->]; auto.
Qed.

(** ** Case and the Format Checker *)

Lemma lower_char_facts (c : ascii) :
  PyStr.isspace (PyStr.lower_char c) = PyStr.isspace c
  /\ PyStr.lower_char (PyStr.lower_char c) = PyStr.lower_char c.
Proof.
  destruct c as [[] [] [] [] [] [] [] []]; split; vm_compute; reflexivity.
Qed.

Lemma lower_idempotent (s : string) :
  PyStr.lower (PyStr.lower s) = PyStr.lower s.
Proof.
  induction s as [|c s IH]; simpl; [reflexivity|].
  now rewrite (proj2 (lower_char_facts c)), IH.
Qed.

Lemma lower_empty (s : string) :
  String.eqb (PyStr.lower s) "" = String.eqb s "".
Proof. destruct s; reflexivity. Qed.

Lemma split_from_lower (s word : string) :
  PyStr.split_from (PyStr.lower word) (PyStr.lower s)
  = map PyStr.lower (PyStr.split_from word s).
Proof.
  revert word; induction s as [|c s IH]; intros word; simpl.
  - rewrite lower_empty. destruct (String.eqb word ""); reflexivity.
  - rewrite (proj1 (lower_char_facts c)), lower_empty.
    destruct (PyStr.isspace c).
    + pose proof (IH "") as IH0. simpl in IH0. rewrite IH0.
      destruct (String.eqb word ""); reflexivity.
    + rewrite <- IH, lower_app. reflexivity.
Qed.

(** X20. The Format Checker does not see the case of the letters at all:
    the lower-cased text has the same words, up to case, and gets the same
    verdict and the same reasons. *)
Theorem format_check_ignores_case (text : string) :
  PyStr.split (PyStr.lower text) = map PyStr.lower (PyStr.split text)
  /\ format_check (PyStr.lower text) = format_check text.
Proof.
  assert (Hs : PyStr.split (PyStr.lower text)
               = map PyStr.lower (PyStr.split text)).
  { exact (split_from_lower text ""). }
  split; [exact Hs|].
  rewrite !format_check_cases. unfold word_count, has_section_keyword.
  now rewrite Hs, length_map, lower_idempotent.
Qed.

(** ** Scores too large for a double *)

Lemma ilog2_ratio_lower (n d : Z) :
  0 < n -> 0 < d -> 0 <= PyFloat.ilog2_ratio n d ->
  d * 2 ^ PyFloat.ilog2_ratio n d <= n.
Proof.
  intros Hn Hd. unfold PyFloat.ilog2_ratio.
  set (k := Z.log2 n - Z.log2 d).
  destruct (Z.leb_spec 0 k) as [Hk|Hk].
  - destruct (Z.leb_spec (d * 2 ^ k) n) as [Hr|Hr]; [intros _; exact Hr|].
    intros Hk1.
    destruct (Z.log2_spec n Hn) as [Hn1 _].
    destruct (Z.log2_spec d Hd) as [_ Hd2].
    pose proof (Z.log2_nonneg d) as Hld.
    assert (E : 2 ^ Z.log2 n = 2 ^ Z.succ (Z.log2 d) * 2 ^ (k - 1)).
    { rewrite <- Z.pow_add_r by lia. f_equal. subst k. lia. }
    assert (0 < 2 ^ (k - 1)) by (apply Z.pow_pos_nonneg; lia).
    nia.
  - destruct (d <=? n * 2 ^ (- k)); intros; lia.
Qed.

Lemma ilog2_ratio_large (n d b : Z) :
  0 < n -> 0 < d -> 0 <= b -> d * 2 ^ b <= n -> b <= PyFloat.ilog2_ratio n d.
Proof.
  intros Hn Hd Hb Hle. unfold PyFloat.ilog2_ratio.
  set (k := Z.log2 n - Z.log2 d).
  destruct (Z.log2_spec n Hn) as [_ Hn2].
  destruct (Z.log2_spec d Hd) as [Hd1 _].
  pose proof (Z.log2_nonneg d) as Hld.
  assert (Hbk : b <= k).
  { destruct (Z.le_gt_cases b k) as [|Hgt]; [assumption|]. exfalso.
    assert (Z.succ (Z.log2 n) <= Z.log2 d + b) by (subst k; lia).
    assert (2 ^ Z.succ (Z.log2 n) <= 2 ^ (Z.log2 d + b))
      by (apply Z.pow_le_mono_r; lia).
    rewrite Z.pow_add_r in * by lia.
    assert (0 < 2 ^ b) by (apply Z.pow_pos_nonneg; lia). nia. }
  destruct (Z.leb_spec 0 k) as [Hk|Hk]; [|lia].
  destruct (Z.leb_spec (d * 2 ^ k) n) as [Hr|Hr]; [exact Hbk|].
  destruct (Z.eq_dec b k) as [->|]; [lia|lia].
Qed.

Lemma round_ratio_overflow (neg : bool) (n d : Z) :
  0 < n -> 0 < d -> d * 2 ^ 1024 <= n ->
  PyFloat.round_ratio neg n d = None.
Proof.
  intros Hn Hd Hbig.
  pose proof (ilog2_ratio_large n d 1024 Hn Hd ltac:(lia) Hbig) as Hil.
  pose proof (ilog2_ratio_lower n d Hn Hd ltac:(lia)) as Hlow.
  unfold PyFloat.round_ratio.
  set (il := PyFloat.ilog2_ratio n d) in *.
  rewrite Z.max_l by lia.
  destruct (Z.leb_spec 0 (il - 52)) as [_|]; [|lia].
  set (den := d * 2 ^ (il - 52)).
  assert (Hden : 0 < den).
  { subst den. assert (0 < 2 ^ (il - 52)) by (apply Z.pow_pos_nonneg; lia). nia. }
  assert (Hq : 2 ^ 52 <= n / den).
  { apply Z.div_le_lower_bound; [exact Hden|]. subst den.
    replace (d * 2 ^ (il - 52) * 2 ^ 52) with (d * 2 ^ il); [exact Hlow|].
    rewrite <- Z.mul_assoc, <- Z.pow_add_r by lia. do 2 f_equal. lia. }
  set (q := n / den) in *. set (r := n mod den).
  set (m := if 2 * r <? den then q
            else if den <? 2 * r then q + 1
            else if Z.even q then q else q + 1).
  assert (Hm : 2 ^ 52 <= m).
  { subst m. destruct (2 * r <? den); [exact Hq|].
    destruct (den <? 2 * r); [lia|]. destruct (Z.even q); lia. }
  assert (Hlog : 52 <= Z.log2 m).
  { change 52 with (Z.log2 (2 ^ 52)). now apply Z.log2_le_mono. }
  assert (Hp52 : 0 < 2 ^ 52) by (apply Z.pow_pos_nonneg; lia).
  destruct (Z.eqb_spec m 0) as [E|_]; [lia|].
  destruct (Z.leb_spec 1024 (Z.log2 m + (il - 52))); [reflexivity|lia].
Qed.

(** X21. A score of 100 * 2^1024 or more has no double for its
    percentage: the division raises [OverflowError], nothing is drawn, and
    the exception ends the run. *)
Theorem huge_score_overflows (value : Z) (label : string) (c : cache) :
  100 * 2 ^ 1024 <= value ->
  circular_progress_bar value 100 label c = ([], c, Raised OverflowError).
Proof.
  intros Hbig.
  assert (Hpos : 0 < value).
  { assert (0 < 2 ^ 1024) by (apply Z.pow_pos_nonneg; lia). lia. }
  unfold circular_progress_bar, gauge_percentage, PyFloat.true_divide.
  change (100 =? 0) with false. cbv iota.
  destruct (Z.eqb_spec value 0) as [E|_]; [lia|].
  rewrite Z.abs_eq by lia. change (Z.abs 100) with 100.
  rewrite (round_ratio_overflow _ value 100 Hpos ltac:(lia) Hbig).
  reflexivity.
Qed.

Lemma huge_score_overflows_witness :
  circular_progress_bar (10 ^ 311) 100 "ATS Score" []
  = ([], [], Raised OverflowError).
Proof.
  apply huge_score_overflows. vm_compute. discriminate.
Defined.

(* ================================================================== *)
(** * Responses that do not decode, from the upload to the report *)

(** ** Which responses the decoder rejects at their start *)








(** ** Runs that show no error *)









(** ** The events of a sequence *)






(** ** The claim *)


